(** * QOpenScienceFramework.connection: session handling, request wrapper, endpoints

    A shallow embedding of [QOpenScienceFramework/connection.py].  The module
    keeps one global OAuth2 session, decorates every API function with
    [requires_authentication], and builds endpoint URLs from the [api_calls]
    table.

    Conventions of the embedding:
    - Python values that the module inspects (decoded JSON, the token
      dictionary, what a decorated function returns) are terms of [value];
    - an exception is a term of [exn], a computation that may raise returns a
      [result];
    - module-level state (the global [session], the outside world reached
      through HTTP, what was printed and logged) is threaded through the
      state-and-exception monad [M];
    - what lives outside the repository (settings.json, the HTTP transport,
      oauthlib's parser of the redirect fragment, the clock) is a field of
      the class [Environment];
    - where Python 2 and Python 3 differ (ordering of unlike types, the
      class of a JSON decoding error) the embedding follows Python 3. *)

From Stdlib Require Import QArith Lqa Ascii String.
From stdpp Require Import base option strings pretty gmap list.

Close Scope Q_scope.
Set Warnings "-register-all".
Local Open Scope string_scope.

(** ** Python values and exceptions *)

(** Plain Python data: [None], booleans, numbers, text, byte strings, lists
    and dictionaries with text keys.  [json.loads] produces such values (never
    [VBytes]), and the OAuth2 token is a dictionary of them. *)
Inductive value : Type :=
  | VNone
  | VBool (b : bool)
  | VNum (q : Q)
  | VStr (s : string)
  | VBytes (b : string)
  | VList (l : list value)
  | VDict (d : gmap string value).

(** The exceptions that can leave the functions of the module.  The first two
    are the module's own names ([TokenExpiredError] is re-exported from
    requests_oauthlib, [OSFInvalidResponse] is declared in the module); the
    next ones are Python built-ins raised by the operations the module uses
    ([JSONDecodeError] is what [response.json()] raises on a body that is not
    JSON, with the decoder's message);
    [LibraryError] stands for any exception raised inside a third-party
    library call (oauthlib, requests), tagged with its class name.
    [NotModelled] marks a use of a Python feature that the embedding does not
    cover; the theorems show it never occurs on the module's own templates. *)
Inductive exn : Type :=
  | TokenExpiredError (msg : value)
  | OSFInvalidResponse (msg : string)
  | KeyError (key : string)
  | IndexError
  | AttributeError (attr : string)
  | TypeError
  | NameError (name : string)
  | ValueError
  | JSONDecodeError (msg : string)
  | LibraryError (cls : string)
  | NotModelled.

Inductive result (A : Type) : Type :=
  | Return (a : A)
  | Raise (e : exn).
Arguments Return {A} a.
Arguments Raise {A} e.

Definition raises {A} (r : result A) : Prop := ∃ e, r = Raise e.

(** The built-in errors of a misused object: a missing attribute, key or
    index, or an operation the type does not have. *)
Definition misuse (e : exn) : Prop :=
  match e with
  | AttributeError _ | KeyError _ | IndexError | TypeError => True
  | _ => False
  end.

(** ** [str.format]

    [template.format] applied to positional arguments, for templates whose
    replacement fields are all the automatically numbered [{}]: each field
    consumes the next positional argument and raises [IndexError] when none
    is left; arguments that no field consumes are ignored.  The doubled braces are the escapes, a lone
    closing brace is a [ValueError].  Fields with an explicit index, a name,
    a conversion or a format specification are not modelled.  Arguments are
    given by their [str()] rendering. *)
Fixpoint format (template : string) (args : list string) : result string :=
  match template with
  | EmptyString => Return EmptyString
  | String "{"%char (String "}"%char rest) =>
      match args with
      | [] => Raise IndexError
      | a :: args' =>
          match format rest args' with
          | Return s => Return (a +:+ s)
          | Raise e => Raise e
          end
      end
  | String "{"%char (String "{"%char rest) =>
      match format rest args with
      | Return s => Return (String "{"%char s)
      | Raise e => Raise e
      end
  | String "}"%char (String "}"%char rest) =>
      match format rest args with
      | Return s => Return (String "}"%char s)
      | Raise e => Raise e
      end
  | String "{"%char _ => Raise NotModelled
  | String "}"%char _ => Raise ValueError
  | String c rest =>
      match format rest args with
      | Return s => Return (String c s)
      | Raise e => Raise e
      end
  end.

(** The number of [{}] fields of a template (escapes skipped as [format]
    skips them). *)
Fixpoint placeholders (template : string) : nat :=
  match template with
  | EmptyString => 0
  | String "{"%char (String "}"%char rest) => S (placeholders rest)
  | String "{"%char (String "{"%char rest) => placeholders rest
  | String "}"%char (String "}"%char rest) => placeholders rest
  | String _ rest => placeholders rest
  end.

(** ** The endpoint table *)

(** [api_calls]: symbolic command to URL template. *)
Definition api_calls : gmap string string :=
  <["logged_in_user" := "users/me/"]>
  (<["projects" := "users/me/nodes/"]>
  (<["project_repos" := "nodes/{}/files/"]>
  (<["repo_files" := "nodes/{}/files/{}/"]>
  (<["file_info" := "files/{}/"]> ∅)))).

Section Endpoints.
(** The value of [api_base_url]. *)
Variable api_base : string.

(** [api_call(command, args...)] returns
    [api_base_url + api_calls[command].format(args...)]. *)
Definition api_call (command : string) (args : list string) : result string :=
  match api_calls !! command with
  | None => Raise (KeyError command)
  | Some template =>
      match format template args with
      | Return path => Return (api_base +:+ path)
      | Raise e => Raise e
      end
  end.
End Endpoints.

(** ** Truth values, subscripts and comparisons of Python values *)

(** [bool(v)]: what [if v] and [not v] test. *)
Definition truthy (v : value) : bool :=
  match v with
  | VNone => false
  | VBool b => b
  | VNum q => negb (Qeq_bool q 0)
  | VStr s => negb (String.eqb s "")
  | VBytes b => negb (String.eqb b "")
  | VList l => match l with [] => false | _ :: _ => true end
  | VDict d => negb (bool_decide (d = ∅))
  end.

(** The number a value stands for in an ordering comparison with a float:
    [int] and [float] themselves, and [bool], which is a subclass of [int]. *)
Definition as_number (v : value) : option Q :=
  match v with
  | VNum q => Some q
  | VBool true => Some 1%Q
  | VBool false => Some 0%Q
  | _ => None
  end.

(** [v > t] for a float [t] (Python 3: ordering a non-number against a float
    is a [TypeError]). *)
Definition gt_float (v : value) (t : Q) : result bool :=
  match as_number v with
  | Some q => Return (negb (Qle_bool q t))
  | None => Raise TypeError
  end.

(** [v[0]]. *)
Definition getitem_0 (v : value) : result value :=
  match v with
  | VList (x :: _) => Return x
  | VList [] => Raise IndexError
  | VStr (String c _) => Return (VStr (String c ""))
  | VStr EmptyString => Raise IndexError
  | VBytes (String c _) => Return (VNum (inject_Z (Z.of_nat (nat_of_ascii c))))
  | VBytes EmptyString => Raise IndexError
  | VDict _ => Raise (KeyError "0")
  | VNone | VBool _ | VNum _ => Raise TypeError
  end.

(** [v[key]] for a text key. *)
Definition getitem_str (v : value) (key : string) : result value :=
  match v with
  | VDict d =>
      match d !! key with
      | Some x => Return x
      | None => Raise (KeyError key)
      end
  | _ => Raise TypeError
  end.

(** [v == s] for a text literal [s]. *)
Definition eq_str (v : value) (s : string) : bool :=
  match v with
  | VStr t => String.eqb t s
  | _ => false
  end.

(** [x in xs] for a list of text literals. *)
Definition in_strs (x : string) (xs : list string) : bool :=
  existsb (String.eqb x) xs.

(** ** Sessions and responses *)

(** The part of [requests_oauthlib.OAuth2Session] that the module reads:
    - [access_token]: the client's [access_token] attribute ([None] until a
      token is stored);
    - [token]: the token dictionary ([{}] until a token is stored);
    - [oauth_state]: the [state] generated with the authorization URL. *)
Record OAuth2Session : Type := {
  access_token : value;
  token : gmap string value;
  oauth_state : option string
}.

(** [OAuth2Session.authorized] is [bool(self.access_token)]. *)
Definition authorized (s : OAuth2Session) : bool := truthy (access_token s).

(** The [token] setter of the session: the dictionary is stored, and the
    client's [access_token] attribute is refreshed when the dictionary has
    that key. *)
Definition set_token (s : OAuth2Session) (tok : gmap string value) : OAuth2Session :=
  {| access_token := default (access_token s) (tok !! "access_token");
     token := tok;
     oauth_state := oauth_state s |}.

(** A [requests.Response]: [json] is what [response.json()] does, return the
    decoded body or raise. *)
Record Response : Type := {
  status_code : Z;
  reason : string;
  headers : gmap string string;
  content : string;
  json : result value
}.

(** What the local variable [response] of the wrapper is bound to: first the
    response object, and after [response = response.json()] the decoded
    body. *)
Inductive pyobj : Type :=
  | OResponse (r : Response)
  | OValue (v : value).

(** [response.keys()]: only dictionaries have the method. *)
Definition keys (o : pyobj) : result (list string) :=
  match o with
  | OValue (VDict d) => Return (map fst (map_to_list d))
  | _ => Raise (AttributeError "keys")
  end.

(** [response.headers]: only the response object has the attribute. *)
Definition headers_of (o : pyobj) : result (gmap string string) :=
  match o with
  | OResponse r => Return (headers r)
  | OValue _ => Raise (AttributeError "headers")
  end.

(** [response[key]] where [response] has been rebound to the decoded body
    (a [requests.Response] is not subscriptable). *)
Definition obj_getitem_str (o : pyobj) (key : string) : result value :=
  match o with
  | OValue v => getitem_str v key
  | OResponse _ => Raise TypeError
  end.

(** [hdrs['content-type']]. *)
Definition header (hdrs : gmap string string) (name : string) : result string :=
  match hdrs !! name with
  | Some v => Return v
  | None => Raise (KeyError name)
  end.

Definition tab : string := String "009"%char "".
Definition newline : string := String "010"%char "".

Definition invalid_token_msg : string :=
  "User provided an invalid OAuth2 access token".

#[global] Instance result_ret : MRet result := @Return.
#[global] Instance result_bind : MBind result :=
  λ A B f r, match r with Return a => f a | Raise e => Raise e end.

(** ** The module *)

(** What the module takes from outside the repository. *)
Class Environment : Type := {
  (** Everything outside the process: the provider, the network. *)
  World : Type;
  (** [time.time()] in a given world. *)
  clock : World → Q;
  (** [settings['base_url']] and [settings['api_base_url']], read from
      settings.json at import time. *)
  base_url : string;
  api_base_url : string;
  (** [session.get] and [session.post] of requests_oauthlib: the method, the
      URL and the form data go out with the session's credentials; a
      response comes back or the library raises. *)
  request :
    OAuth2Session → string → string → gmap string value → World →
    result Response * World;
  (** oauthlib's [parse_implicit_response(uri, state=...)]: the token
      dictionary carried by the fragment of the redirect URL, or the parse
      error it raises. *)
  parse_implicit_response :
    string → option string → World → result (gmap string value);
  (** [str()] of a byte string, as [format] renders [response.content]. *)
  bytes_str : string → string
}.

Section Connection.
Context `{Environment}.

(** Module state: the global [session] ([None] at import), the world, the
    lines printed and the records logged (level, message). *)
Record State : Type := {
  session : option OAuth2Session;
  world : World;
  stdout : list string;
  log : list (string * string)
}.

Definition M (A : Type) : Type := State → result A * State.

#[global] Instance M_ret : MRet M := λ A a st, (Return a, st).
#[global] Instance M_bind : MBind M :=
  λ A B f m st,
    match m st with
    | (Return a, st') => f a st'
    | (Raise e, st') => (Raise e, st')
    end.

Definition raise {A} (e : exn) : M A := λ st, (Raise e, st).
Definition lift {A} (r : result A) : M A := λ st, (r, st).
Definition print (line : string) : M unit :=
  λ st, (Return (),
         {| session := session st; world := world st;
            stdout := stdout st ++ [line]; log := log st |}).
Definition logging (level msg : string) : M unit :=
  λ st, (Return (),
         {| session := session st; world := world st;
            stdout := stdout st; log := log st ++ [(level, msg)] |}).
(** An HTTP call through the session object; the global is [None] until
    [create_session] ran, and [None] has no attributes. *)
Definition session_request (method url : string)
    (data : OAuth2Session → gmap string value) : M Response :=
  λ st,
    match session st with
    | None => (Raise (AttributeError method), st)
    | Some s =>
        let '(r, w) := request s method url (data s) (world st) in
        (r, {| session := session st; world := w;
               stdout := stdout st; log := log st |})
    end.

Definition auth_url : string := base_url +:+ "oauth2/authorize".
Definition token_url : string := base_url +:+ "oauth2/token".
Definition logout_url : string := base_url +:+ "oauth2/revoke".

(** [OAuth2Session.token_from_fragment(url)]: the client parses the
    fragment, and the token it found is stored on the session and
    returned; a parse error leaves the session as it was. *)
Definition token_from_fragment (url : string) : M (gmap string value) :=
  λ st,
    match session st with
    | None => (Raise (AttributeError "token_from_fragment"), st)
    | Some s =>
        match parse_implicit_response url (oauth_state s) (world st) with
        | Raise e => (Raise e, st)
        | Return tok =>
            (Return tok,
             {| session := Some (set_token s tok); world := world st;
                stdout := stdout st; log := log st |})
        end
    end.

(** [is_authorized()]: [return session.authorized]. *)
Definition is_authorized : M bool :=
  λ st,
    match session st with
    | None => (Raise (AttributeError "authorized"), st)
    | Some s => (Return (authorized s), st)
    end.

(** [parse_token_from_url(url)]. *)
Definition parse_token_from_url (url : string) : M value :=
  tok ← token_from_fragment url;
  a ← is_authorized;
  if (a : bool) then mret (VDict tok)
  else logging "DEBUG" "ERROR: Token received, but user not authorized";;
       mret VNone.

(** [token_valid()]: [hasattr(session, "token")] is false for [None]; the
    token dictionary is falsy when empty. *)
Definition token_valid : M bool :=
  λ st,
    match session st with
    | None => (Return false, st)
    | Some s =>
        if negb (truthy (VDict (token s))) then (Return false, st)
        else
          match token s !! "expires_at" with
          | None => (Raise (KeyError "expires_at"), st)
          | Some e => (gt_float e (clock (world st)), st)
          end
    end.

(** [logout()]: the token is revoked at the provider; on 204 the module
    logs and evaluates [reset_session()], a name bound neither in the
    module nor in the built-ins, so the call raises [NameError] before the
    assignment to [session]. *)
Definition logout : M bool :=
  resp ← session_request "post" logout_url (λ s, {["token" := access_token s]});
  if (status_code (resp : Response) =? 204)%Z then
    logging "INFO" "User logged out";;
    raise (NameError "reset_session")
  else
    logging "DEBUG" "Error logging out";;
    mret false.

(** *** [requires_authentication] *)

(** Lines 153-166: a 200 response is decoded (structured JSON) or handed
    back raw (octet stream); [None] means that neither [return] was
    reached and control falls through to the error handling. *)
Definition on_ok (response : Response) : M (option value) :=
  if (status_code response =? 200)%Z then
    ct ← lift (header (headers response) "content-type");
    if String.eqb ct "application/vnd.api+json" then
      match json response with
      | Return v => mret (Some v)
      | Raise (JSONDecodeError e) =>
          text ← lift (format "Could not decode response to JSON: {}" [e]);
          raise (OSFInvalidResponse text)
      | Raise e => raise e
      end
    else
      ct ← lift (header (headers response) "content-type");
      if String.eqb ct "application/octet-stream"
      then mret (Some (VBytes (content response)))
      else mret None
  else mret None.

(** [response['errors'][0]['detail']]. *)
Definition error_detail (response : pyobj) : result value :=
  errors ← obj_getitem_str response "errors";
  first ← getitem_0 errors;
  getitem_str first "detail".

(** Lines 168-184: for a JSON content type the variable [response] is
    rebound to the decoded body; on a decoding error the exception object
    is built but not raised, and [response] stays the response object.
    The result is what [response] is bound to afterwards. *)
Definition on_json_error (response : Response) : M pyobj :=
  ct ← lift (header (headers response) "content-type");
  if in_strs ct ["application/json"; "application/vnd.api+json"] then
    obj ← match json response with
          | Return v => mret (OValue v)
          | Raise (JSONDecodeError e) =>
              _ ← lift (format "Could not decode response to JSON: {}" [e]);
              mret (OResponse response)
          | Raise e => raise e
          end;
    ks ← lift (keys obj);
    if in_strs "errors" ks then
      msg ← match error_detail obj with
            | Raise (AttributeError _) =>
                raise (OSFInvalidResponse
                         ("An error occured, but OSF error "
                          +:+ tab +:+ tab +:+ tab +:+ tab +:+ tab +:+ tab
                          +:+ "message could not be retrieved. Invalid format?"))
            | r => lift r
            end;
      if eq_str msg invalid_token_msg then
        logout;;
        raise (TokenExpiredError msg)
      else mret obj
    else mret obj
  else mret (OResponse response).

(** Lines 190-201: the final report reads [status_code], [reason],
    [headers] and [content] from whatever [response] is bound to. *)
Definition report (response : pyobj) : M value :=
  match response with
  | OValue _ => raise (AttributeError "headers")
  | OResponse r =>
      ct ← lift (header (headers r) "content-type");
      let message :=
        if negb (in_strs ct ["text/html"; "application/octet-stream"])
        then bytes_str (content r) else "" in
      ct' ← lift (header (headers r) "content-type");
      error_text ←
        lift (format ("Could not handle response {}: {}" +:+ newline
                      +:+ "Content Type: {}" +:+ newline +:+ "{}")
                     [pretty (status_code r); reason r; ct'; message]);
      raise (OSFInvalidResponse error_text)
  end.

(** [func_wrapper], the function that [requires_authentication(func)]
    returns; [func] is the decorated function applied to its arguments. *)
Definition func_wrapper (func : M Response) : M value :=
  a ← is_authorized;
  if negb a then
    print "You are not authenticated. Please log in first.";;
    mret (VBool false)
  else
    v ← token_valid;
    if negb v then
      raise (TokenExpiredError (VStr "The supplied token has expired"))
    else
      response ← func;
      returned ← on_ok response;
      match returned with
      | Some payload => mret payload
      | None =>
          response' ← on_json_error response;
          report response'
      end.

(** *** The decorated API functions *)

(** [session.get(url)], with the URL computed after the attribute lookup. *)
Definition session_get (url : result string) : M Response :=
  λ st,
    match session st with
    | None => (Raise (AttributeError "get"), st)
    | Some _ =>
        match url with
        | Raise e => (Raise e, st)
        | Return u => session_request "get" u (λ _, ∅) st
        end
    end.

Definition get_logged_in_user : M value :=
  func_wrapper (session_get (api_call api_base_url "logged_in_user" [])).
Definition get_user_projects : M value :=
  func_wrapper (session_get (api_call api_base_url "projects" [])).
Definition get_project_repos (project_id : string) : M value :=
  func_wrapper (session_get (api_call api_base_url "project_repos" [project_id])).
Definition get_repo_files (project_id repo_name : string) : M value :=
  func_wrapper
    (session_get (api_call api_base_url "repo_files" [project_id; repo_name])).
Definition direct_api_call (url : string) : M value :=
  func_wrapper (session_get (Return url)).
End Connection.

(** ** States that the theorems name *)

Section Outcomes.
Context `{Environment}.

(** The state after the wrapper turned an unauthorized caller away: one
    more line on standard output, nothing else. *)
Definition turned_away (st : State) : State :=
  {| session := session st; world := world st;
     stdout := stdout st ++ ["You are not authenticated. Please log in first."];
     log := log st |}.

(** A session whose stored token ran out one second before the clock of
    world [w]. *)
Definition stale (w : World) : State :=
  {| session :=
       Some {| access_token := VStr "abc";
               token := <["access_token" := VStr "abc"]>
                        (<["expires_at" := VNum (clock w - 1)]> ∅);
               oauth_state := None |};
     world := w; stdout := []; log := [] |}.

(** The state after a revocation request that moved the world to [w'] and
    left one record in the log. *)
Definition after_revocation (st : State) (w' : World) (level msg : string) : State :=
  {| session := session st; world := w'; stdout := stdout st;
     log := log st ++ [(level, msg)] |}.

(** The state after the session stored token [tok]. *)
Definition token_stored (st : State) (s : OAuth2Session)
    (tok : gmap string value) : State :=
  {| session := Some (set_token s tok); world := world st;
     stdout := stdout st; log := log st |}.
End Outcomes.

(** ** Session creation *)

(** The session that [requests_oauthlib.OAuth2Session(client_id, client,
    scope=..., redirect_uri=...)] builds around a new
    [MobileApplicationClient]: no access token, an empty token dictionary,
    no state yet. *)
Definition new_session : OAuth2Session :=
  {| access_token := VNone; token := ∅; oauth_state := None |}.

(** The message of the [KeyError] that [create_session] raises; [key] is
    the missing key, rendered as [str()] renders the original [KeyError]:
    between single quotes. *)
Definition missing_setting (key : string) : result string :=
  format ("The OAuth2 settings dictionary is missing the {} entry. "
          +:+ "Please add it to the QOpenScienceFramework.connection.settings "
          +:+ "dicationary before trying to create a new session")
         ["'" +:+ key +:+ "'"].

Section SessionSetup.
Context `{Environment}.

(** [create_session()], with the module's [settings] dictionary as it is
    when the call is made: both entries are read inside the [try], the
    first missing one is reported, and otherwise the global [session] is
    rebound to a new session. *)
Definition create_session (settings : gmap string value) : M unit :=
  λ st,
    match settings !! "client_id" with
    | None =>
        match missing_setting "client_id" with
        | Return msg => (Raise (KeyError msg), st)
        | Raise e => (Raise e, st)
        end
    | Some client_id =>
        match settings !! "redirect_uri" with
        | None =>
            match missing_setting "redirect_uri" with
            | Return msg => (Raise (KeyError msg), st)
            | Raise e => (Raise e, st)
            end
        | Some redirect_uri =>
            (Return (),
             {| session := Some new_session; world := world st;
                stdout := stdout st; log := log st |})
        end
    end.

(** A computation that leaves the global [session] bound as it was. *)
Definition keeps_session {A} (m : M A) : Prop :=
  ∀ st, session (snd (m st)) = session st.
End SessionSetup.

(** ** The login window (loginwindow.py) *)

(** What the callbacks read of a [QUrl]. *)
Record QUrl : Type := {
  hasFragment : bool;
  toString : string
}.

(** What the callbacks change of the window: the [token] attribute (absent
    until first assigned), how often the [logged_in] signal was emitted, and
    whether the window is shown. *)
Record LoginWindow : Type := {
  window_token : option value;
  logged_in_emitted : nat;
  shown : bool
}.

(** [osf.redirect_uri]: the connection module binds no name [redirect_uri]
    ([create_session] keeps it in a local variable), so reading the
    attribute raises. *)
Definition osf_redirect_uri : result string :=
  Raise (AttributeError "redirect_uri").

(** [a in b] for two texts. *)
Definition contains (a b : string) : bool :=
  match String.index 0 a b with Some _ => true | None => false end.

Section LoginWindowCallbacks.
Context `{Environment}.
(** [str(e)], the text [logging.warning(e)] records. *)
Variable exn_str : exn → string.
(** Whether a library's exception class derives from [ValueError]. *)
Variable library_is_ValueError : string → bool.

(** Whether [except ValueError] catches the exception
    ([json.JSONDecodeError] is a subclass of [ValueError]). *)
Definition caught_as_ValueError (e : exn) : bool :=
  match e with
  | ValueError | JSONDecodeError _ => true
  | LibraryError cls => library_is_ValueError cls
  | _ => false
  end.

(** The [try: self.token = osf.parse_token_from_url(url) / except
    ValueError / else: emit, hide] block that both callbacks end with.  The
    result is the window after the block. *)
Definition try_parse_token (url_string : string) (win : LoginWindow)
    : M LoginWindow :=
  λ st,
    match parse_token_from_url url_string st with
    | (Return tok, st') =>
        (Return {| window_token := Some tok;
                   logged_in_emitted := S (logged_in_emitted win);
                   shown := false |}, st')
    | (Raise e, st') =>
        if caught_as_ValueError e
        then (logging "WARNING" (exn_str e);; mret win) st'
        else (Raise e, st')
    end.

(** [LoginWindow.check_URL(url)]. *)
Definition check_URL (url : QUrl) (win : LoginWindow) : M LoginWindow :=
  if hasFragment url then try_parse_token (toString url) win
  else mret win.

(** [LoginWindow.checkResponse(reply)]; [statuscode] and [redirectUrl] are
    the two attributes read from the reply. *)
Definition checkResponse (statuscode : option Z) (redirectUrl : QUrl)
    (win : LoginWindow) : M LoginWindow :=
  if negb (bool_decide (statuscode = Some 302%Z)) then mret win
  else if negb (hasFragment redirectUrl) then mret win
  else
    redirect_uri ← lift osf_redirect_uri;
    if contains redirect_uri (toString redirectUrl)
    then try_parse_token (toString redirectUrl) win
    else mret win.
End LoginWindowCallbacks.

(** ** A scripted environment for concrete runs

    The world records the clock, every request sent, the response the API
    serves to a GET and the status the provider answers to a revocation. *)
Module Script.
Record script : Type := {
  now : Q;
  sent : list (string * string);
  api_reply : Response;
  revoke_status : Z
}.

Definition no_content (status : Z) : Response :=
  {| status_code := status; reason := ""; headers := ∅; content := "";
     json := Raise (JSONDecodeError "Expecting value: line 1 column 1 (char 0)") |}.

Definition serve (s : OAuth2Session) (method url : string)
    (data : gmap string value) (w : script) : result Response * script :=
  let w' := {| now := now w; sent := sent w ++ [(method, url)];
               api_reply := api_reply w; revoke_status := revoke_status w |} in
  if String.eqb method "post"
  then (Return (no_content (revoke_status w)), w')
  else (Return (api_reply w), w').

Definition good_url : string :=
  "https://example.org/callback#access_token=abc&expires_in=3600&state=xyz".

(** Accepts [good_url] only; every other URL is reported as carrying no
    token. *)
Definition parse (url : string) (state : option string) (w : script)
    : result (gmap string value) :=
  if String.eqb url good_url
  then Return (<["access_token" := VStr "abc"]>
               (<["expires_at" := VNum (now w + 3600)]> ∅))
  else Raise (LibraryError "MissingTokenError").

Definition env : Environment :=
  {| World := script; clock := now;
     base_url := "https://accounts.example.org/";
     api_base_url := "https://api.example.org/v2/";
     request := serve; parse_implicit_response := parse;
     bytes_str := λ b, "b'" +:+ b +:+ "'" |}.

(** A session holding token [abc] that expires at time 1000. *)
Definition logged_in : OAuth2Session :=
  {| access_token := VStr "abc";
     token := <["access_token" := VStr "abc"]> (<["expires_at" := VNum 1000]> ∅);
     oauth_state := Some "xyz" |}.

(** A session as [create_session] leaves it: no token yet. *)
Definition fresh : OAuth2Session :=
  {| access_token := VNone; token := ∅; oauth_state := None |}.

Definition json_reply (status : Z) (why : string) (body : value) : Response :=
  {| status_code := status; reason := why;
     headers := {["content-type" := "application/json"]};
     content := ""; json := Return body |}.

Definition error_body (detail : string) : value :=
  VDict {["errors" := VList [VDict {["detail" := VStr detail]}]]}.

Definition start (s : option OAuth2Session) (t : Q) (reply : Response)
    (revoke : Z) : @State env :=
  @Build_State env s
    {| now := t; sent := []; api_reply := reply; revoke_status := revoke |}
    [] [].
End Script.

(** ** Concrete runs in the scripted environment *)

Module Runs.
Import Script.

(** The API answers 401 with the provider's invalid-token envelope. *)
Definition invalid_token_reply : Response :=
  json_reply 401 "Unauthorized" (error_body invalid_token_msg).

(** The API answers 404 with an ordinary error envelope. *)
Definition not_found_reply : Response :=
  json_reply 404 "Not Found" (error_body "Not found.").

(** No token yet; the clock reads 500. *)
Definition anonymous : @State env :=
  start (Some fresh) 500 not_found_reply 400.

(** Token [abc] expiring at 1000, read at the very instant 1000. *)
Definition at_expiry : @State env :=
  start (Some logged_in) 1000 not_found_reply 400.

(** Token [abc] still valid; the API rejects it and the provider answers
    the revocation with [revoke]. *)
Definition rejected (revoke : Z) : @State env :=
  start (Some logged_in) 500 invalid_token_reply revoke.

(** Token [abc] still valid; the API answers 404. *)
Definition missing : @State env :=
  start (Some logged_in) 500 not_found_reply 400.

(** [rejected revoke] once the GET of [get_logged_in_user] went out, and
    the world once the revocation went out as well. *)
Definition get_sent : list (string * string) :=
  [("get", "https://api.example.org/v2/users/me/")].
Definition after_get (revoke : Z) : @State env :=
  @Build_State env (Some logged_in)
    {| now := 500; sent := get_sent;
       api_reply := invalid_token_reply; revoke_status := revoke |}
    [] [].
Definition after_post (revoke : Z) : script :=
  {| now := 500;
     sent := get_sent ++ [("post", "https://accounts.example.org/oauth2/revoke")];
     api_reply := invalid_token_reply; revoke_status := revoke |}.

(** Replies on the paths that end well or in the module's own error. *)
Definition user_body : value :=
  VDict {["data" := VDict {["id" := VStr "u1"]}]}.
Definition ok_reply : Response :=
  {| status_code := 200; reason := "OK";
     headers := {["content-type" := "application/vnd.api+json"]};
     content := ""; json := Return user_body |}.
Definition download_reply : Response :=
  {| status_code := 200; reason := "OK";
     headers := {["content-type" := "application/octet-stream"]};
     content := "raw bytes"; json := Raise (JSONDecodeError "Expecting value") |}.
Definition html_reply : Response :=
  {| status_code := 502; reason := "Bad Gateway";
     headers := {["content-type" := "text/html"]};
     content := "<html>...</html>"; json := Raise (JSONDecodeError "Expecting value") |}.
Definition serving (reply : Response) : @State env :=
  start (Some logged_in) 500 reply 400.
End Runs.

(** ** More scripted runs *)

Module MoreRuns.
Import Script.

(** A settings dictionary with both OAuth2 entries, and one that lacks the
    redirect URI. *)
Definition full_settings : gmap string value :=
  <["client_id" := VStr "cid"]>
  (<["redirect_uri" := VStr "https://example.org/callback"]> ∅).
Definition partial_settings : gmap string value :=
  {["client_id" := VStr "cid"]}.

(** [Runs.serving reply] once the GET of [get_logged_in_user] went out. *)
Definition served (reply : Response) : @State env :=
  @Build_State env (Some logged_in)
    {| now := 500; sent := Runs.get_sent;
       api_reply := reply; revoke_status := 400 |}
    [] [].

(** More replies: a 200 whose body is not JSON, a plain-text 500, and a
    reply without a content type. *)
Definition garbled_reply : Response :=
  {| status_code := 200; reason := "OK";
     headers := {["content-type" := "application/vnd.api+json"]};
     content := "<<<"; json := Raise (JSONDecodeError "Expecting value") |}.
Definition plain_reply : Response :=
  {| status_code := 500; reason := "Internal Server Error";
     headers := {["content-type" := "text/plain"]};
     content := "boom"; json := Raise (JSONDecodeError "Expecting value") |}.
Definition bare_reply : Response := no_content 500.

(** A wrapped function whose transport fails. *)
Definition unreachable : @M env Response :=
  raise (LibraryError "ConnectionError").

(** No session at all: the module right after import. *)
Definition imported : @State env := start None 500 Runs.ok_reply 400.

(** A session whose token came without an expiry. *)
Definition undated : OAuth2Session :=
  {| access_token := VStr "abc";
     token := {["access_token" := VStr "abc"]};
     oauth_state := None |}.
Definition undated_state : @State env :=
  start (Some undated) 500 Runs.ok_reply 400.

(** A fresh session about to log in; the API will answer with the user. *)
Definition about_to_log_in : @State env :=
  start (Some fresh) 500 Runs.ok_reply 400.
Definition granted : gmap string value :=
  <["access_token" := VStr "abc"]> (<["expires_at" := VNum (500 + 3600)]> ∅).

(** A second parser: it knows a redirect whose access token is blank and a
    redirect whose state does not match. *)
Definition blank_url : string :=
  "https://example.org/callback#access_token=&state=xyz".
Definition mismatch_url : string :=
  "https://example.org/callback#access_token=abc&state=other".
Definition blank_token : gmap string value :=
  {["access_token" := VStr ""]}.
Definition parse' (url : string) (state : option string) (w : script)
    : result (gmap string value) :=
  if String.eqb url blank_url then Return blank_token
  else if String.eqb url mismatch_url then Raise ValueError
  else parse url state w.
Definition env' : Environment :=
  {| World := script; clock := now;
     base_url := "https://accounts.example.org/";
     api_base_url := "https://api.example.org/v2/";
     request := serve; parse_implicit_response := parse';
     bytes_str := λ b, "b'" +:+ b +:+ "'" |}.
Definition waiting : @State env' :=
  @Build_State env' (Some fresh)
    {| now := 500; sent := []; api_reply := Runs.ok_reply; revoke_status := 400 |}
    [] [].

(** The login window before anything happened, and the renderings the
    callbacks need. *)
Definition closed_window : LoginWindow :=
  {| window_token := None; logged_in_emitted := 0; shown := true |}.
Definition show_exn (e : exn) : string :=
  match e with
  | ValueError => "Mismatching or missing state in params."
  | _ => ""
  end.
Definition no_library_ValueError (cls : string) : bool := false.
Definition fragment_url (s : string) : QUrl :=
  {| hasFragment := true; toString := s |}.

(** A third environment, in which no request gets through. *)
Definition transport_down (s : OAuth2Session) (method url : string)
    (data : gmap string value) (w : script) : result Response * script :=
  (Raise (LibraryError "ConnectionError"), w).
Definition offline : Environment :=
  {| World := script; clock := now;
     base_url := "https://accounts.example.org/";
     api_base_url := "https://api.example.org/v2/";
     request := transport_down; parse_implicit_response := parse;
     bytes_str := λ b, "b'" +:+ b +:+ "'" |}.
Definition cut_off : @State offline :=
  @Build_State offline (Some logged_in)
    {| now := 500; sent := []; api_reply := Runs.ok_reply; revoke_status := 204 |}
    [] [].
End MoreRuns.

(** ** Facts about the session predicates *)

Section SessionFacts.
Context `{Environment}.

Lemma truthy_dict (d : gmap string value) :
  truthy (VDict d) = true ↔ d ≠ ∅.
Proof.
  simpl. case_bool_decide; simpl; split; intros; congruence.
Qed.

Lemma gt_float_true (v : value) (t : Q) :
  gt_float v t = Return true ↔ ∃ q, as_number v = Some q ∧ (t < q)%Q.
Proof.
  unfold gt_float. destruct (as_number v) as [q|].
  - split.
    + intros Hq. exists q. split; [reflexivity|].
      apply Qnot_le_lt. intros Hle. apply Qle_bool_iff in Hle.
      rewrite Hle in Hq. discriminate.
    + intros (q' & [= <-] & Hlt).
      destruct (Qle_bool q t) eqn:Hle; [|reflexivity].
      apply Qle_bool_iff in Hle. exfalso. exact (Qlt_not_le _ _ Hlt Hle).
  - split; [discriminate | intros (q & [=] & _)].
Qed.

Lemma gt_float_false (v : value) (t : Q) :
  gt_float v t = Return false ↔ ∃ q, as_number v = Some q ∧ (q <= t)%Q.
Proof.
  unfold gt_float. destruct (as_number v) as [q|].
  - split.
    + intros Hq. exists q. split; [reflexivity|].
      apply Qle_bool_iff. destruct (Qle_bool q t); [reflexivity | discriminate].
    + intros (q' & [= <-] & Hle). apply Qle_bool_iff in Hle. by rewrite Hle.
  - split; [discriminate | intros (q & [=] & _)].
Qed.

(** Neither predicate touches the module state. *)
Lemma is_authorized_state (st : State) : snd (is_authorized st) = st.
Proof. unfold is_authorized. by destruct (session st). Qed.

Lemma token_valid_state (st : State) : snd (token_valid st) = st.
Proof.
  unfold token_valid. destruct (session st) as [s|]; [|done].
  destruct (negb _); [done|]. by destruct (token s !! "expires_at").
Qed.

Lemma token_valid_false_iff (st : State) :
  fst (token_valid st) = Return false ↔
    session st = None ∨
    ∃ s, session st = Some s ∧
         (token s = ∅ ∨
          ∃ e q, token s !! "expires_at" = Some e ∧ as_number e = Some q ∧
                 (q <= clock (world st))%Q).
Proof.
  unfold token_valid. destruct (session st) as [s|]; simpl.
  2:{ split; auto. }
  case_bool_decide as Hemp; simpl.
  - split; [|reflexivity]. intros _. right. exists s. auto.
  - destruct (token s !! "expires_at") as [e|] eqn:He; simpl.
    + split.
      * intros Hf. apply gt_float_false in Hf as (q & Hq & Hle).
        right. exists s. split; [done|]. right. by exists e, q.
      * intros [[=]|(s' & [= <-] & [Hz|(e' & q & He' & Hq & Hle)])];
          [contradiction|].
        rewrite He in He'. injection He' as <-.
        apply gt_float_false. by exists q.
    + split; [discriminate|].
      intros [[=]|(s' & [= <-] & [Hz|(e' & q & He' & _)])];
        [contradiction|]. rewrite He in He'. discriminate.
Qed.

Lemma token_valid_true_iff (st : State) :
  fst (token_valid st) = Return true ↔
    ∃ s e q, session st = Some s ∧ token s ≠ ∅ ∧
             token s !! "expires_at" = Some e ∧ as_number e = Some q ∧
             (clock (world st) < q)%Q.
Proof.
  unfold token_valid. destruct (session st) as [s|]; simpl.
  2:{ split; [discriminate | intros (s & e & q & [=] & _)]. }
  case_bool_decide as Hemp; simpl.
  - split; [discriminate|].
    intros (s' & e & q & [= <-] & Hne & _). contradiction.
  - destruct (token s !! "expires_at") as [e|] eqn:He; simpl.
    + split.
      * intros Ht. apply gt_float_true in Ht as (q & Hq & Hlt).
        by exists s, e, q.
      * intros (s' & e' & q & [= <-] & _ & He' & Hq & Hlt).
        rewrite He in He'. injection He' as <-.
        apply gt_float_true. by exists q.
    + split; [discriminate|].
      intros (s' & e' & q & [= <-] & _ & He' & _).
      rewrite He in He'. discriminate.
Qed.

(** C4: [token_valid()] returns [False] exactly when there is no session,
    the token dictionary is empty, or [expires_at] is not after the current
    time (the boundary [expires_at = now] included); it returns [True]
    exactly when a non-empty token has [expires_at] strictly after the
    current time. *)
Theorem token_valid_iff (st : State) :
  (fst (token_valid st) = Return false ↔
     session st = None ∨
     ∃ s, session st = Some s ∧
          (token s = ∅ ∨
           ∃ e q, token s !! "expires_at" = Some e ∧ as_number e = Some q ∧
                  (q <= clock (world st))%Q))
  ∧
  (fst (token_valid st) = Return true ↔
     ∃ s e q, session st = Some s ∧ token s ≠ ∅ ∧
              token s !! "expires_at" = Some e ∧ as_number e = Some q ∧
              (clock (world st) < q)%Q).
Proof.
  split; [apply token_valid_false_iff | apply token_valid_true_iff].
Qed.
End SessionFacts.

(** ** Facts about the request wrapper *)

Section WrapperFacts.
Context `{Environment}.

Lemma bind_return {A B} (m : M A) (f : A → M B) (st st' : State) (a : A) :
  m st = (Return a, st') → (m ≫= f) st = f a st'.
Proof. intros Hm. unfold mbind, M_bind. by rewrite Hm. Qed.

Lemma bind_raise {A B} (m : M A) (f : A → M B) (st st' : State) (e : exn) :
  m st = (Raise e, st') → (m ≫= f) st = (Raise e, st').
Proof. intros Hm. unfold mbind, M_bind. by rewrite Hm. Qed.

Lemma is_authorized_run (st : State) (b : bool) :
  fst (is_authorized st) = Return b → is_authorized st = (Return b, st).
Proof.
  intros Hb. rewrite (surjective_pairing (is_authorized st)).
  by rewrite Hb, is_authorized_state.
Qed.

Lemma token_valid_run (st : State) (b : bool) :
  fst (token_valid st) = Return b → token_valid st = (Return b, st).
Proof.
  intros Hb. rewrite (surjective_pairing (token_valid st)).
  by rewrite Hb, token_valid_state.
Qed.

(** C1 (amended): when [is_authorized()] is false the wrapper prints a
    notice and returns [False]; it raises nothing, and the wrapped function
    is not run: the result is the same for every [func], and the session
    and the world are as before. *)
Theorem unauthorized_returns_False (func : M Response) (st : State) :
  fst (is_authorized st) = Return false →
  func_wrapper func st = (Return (VBool false), turned_away st).
Proof.
  intros Ha. unfold func_wrapper.
  rewrite (bind_return _ _ st st false (is_authorized_run _ _ Ha)).
  reflexivity.
Qed.

(** The wrapper up to its second check. *)
Lemma func_wrapper_checks (func : M Response) (st : State) (valid : bool) :
  fst (is_authorized st) = Return true →
  fst (token_valid st) = Return valid →
  func_wrapper func st
  = if valid
    then (response ← func;
          returned ← on_ok response;
          match returned with
          | Some payload => mret payload
          | None => response' ← on_json_error response; report response'
          end) st
    else (Raise (TokenExpiredError (VStr "The supplied token has expired")), st).
Proof.
  intros Ha Hv. unfold func_wrapper.
  rewrite (bind_return _ _ st st true (is_authorized_run _ _ Ha)). simpl.
  rewrite (bind_return _ _ st st valid (token_valid_run _ _ Hv)).
  by destruct valid.
Qed.

(** C6: when the session is authorized and [token_valid()] is false, the
    wrapper raises [TokenExpiredError] with the module state untouched,
    whatever the wrapped function is: it is not run and nothing is sent. *)
Theorem expired_raises_TokenExpiredError (func : M Response) (st : State) :
  fst (is_authorized st) = Return true →
  fst (token_valid st) = Return false →
  func_wrapper func st
  = (Raise (TokenExpiredError (VStr "The supplied token has expired")), st).
Proof.
  intros Ha Hv. exact (func_wrapper_checks func st false Ha Hv).
Qed.

(** C10: [is_authorized()] and [token_valid()] are independent: in any
    world there is a state where the first returns [True] and the second
    [False] (a stored token whose [expires_at] has passed), so the first
    does not imply the second; there the wrapper, which checks both, stops
    every call with [TokenExpiredError]. *)
Theorem authorized_does_not_imply_valid (w : World) :
  (∃ st : State,
      world st = w ∧
      fst (is_authorized st) = Return true ∧
      fst (token_valid st) = Return false ∧
      ∀ func, fst (func_wrapper func st)
              = Raise (TokenExpiredError (VStr "The supplied token has expired")))
  ∧ ¬ (∀ st : State,
         fst (is_authorized st) = Return true →
         fst (token_valid st) = Return true).
Proof.
  assert (Ha : fst (is_authorized (stale w)) = Return true) by reflexivity.
  assert (Hv : fst (token_valid (stale w)) = Return false).
  { apply token_valid_false_iff. right. eexists. split; [reflexivity|]. right.
    exists (VNum (clock w - 1)), (clock w - 1)%Q.
    split; [|split]; [by simplify_map_eq | reflexivity |].
    simpl. lra. }
  split.
  - exists (stale w). split; [reflexivity|]. split; [exact Ha|].
    split; [exact Hv|]. intros func.
    rewrite (func_wrapper_checks func _ false Ha Hv). reflexivity.
  - intros Hall. specialize (Hall (stale w) Ha).
    rewrite Hv in Hall. discriminate Hall.
Qed.

(** *** [logout] *)

Lemma logout_refused (st : State) (s : OAuth2Session) (resp : Response) (w' : World) :
  session st = Some s →
  request s "post" logout_url {["token" := access_token s]} (world st)
    = (Return resp, w') →
  status_code resp ≠ 204%Z →
  logout st = (Return false, after_revocation st w' "DEBUG" "Error logging out").
Proof.
  intros Hs Hreq Hcode. unfold logout.
  erewrite bind_return.
  2:{ unfold session_request. rewrite Hs, Hreq. reflexivity. }
  apply Z.eqb_neq in Hcode. rewrite Hcode.
  unfold after_revocation. rewrite Hs. reflexivity.
Qed.

Lemma logout_confirmed (st : State) (s : OAuth2Session) (resp : Response) (w' : World) :
  session st = Some s →
  request s "post" logout_url {["token" := access_token s]} (world st)
    = (Return resp, w') →
  status_code resp = 204%Z →
  logout st = (Raise (NameError "reset_session"),
               after_revocation st w' "INFO" "User logged out").
Proof.
  intros Hs Hreq Hcode. unfold logout.
  erewrite bind_return.
  2:{ unfold session_request. rewrite Hs, Hreq. reflexivity. }
  apply Z.eqb_eq in Hcode. rewrite Hcode.
  unfold after_revocation. rewrite Hs. reflexivity.
Qed.

(** Whatever the provider answers, [logout] leaves the global [session]
    bound to the object it was bound to. *)
Lemma logout_keeps_session (st : State) :
  session (snd (logout st)) = session st.
Proof.
  unfold logout, mbind, M_bind, session_request.
  destruct (session st) as [s|] eqn:Hs; [|exact Hs].
  destruct (request s "post" logout_url _ (world st)) as [[resp|e] w'];
    [|reflexivity].
  destruct (status_code resp =? 204)%Z; reflexivity.
Qed.

(** *** Responses that are not a 200 *)

Lemma on_ok_not_200 (response : Response) (st : State) :
  status_code response ≠ 200%Z → on_ok response st = (Return None, st).
Proof.
  intros Hcode. unfold on_ok. apply Z.eqb_neq in Hcode. by rewrite Hcode.
Qed.

Lemma in_strs_keys (d : gmap string value) (k : string) :
  in_strs k (map fst (map_to_list d)) = true ↔ is_Some (d !! k).
Proof.
  unfold in_strs. rewrite existsb_exists. split.
  - intros (k' & Hin & Heq). apply String.eqb_eq in Heq as <-.
    apply in_map_iff in Hin as ([k' v] & <- & Hin).
    apply list_elem_of_In, elem_of_map_to_list in Hin. by exists v.
  - intros [v Hv]. exists k. split; [|apply String.eqb_refl].
    apply in_map_iff. exists (k, v). split; [reflexivity|].
    by apply list_elem_of_In, elem_of_map_to_list.
Qed.

Lemma error_detail_has_errors (d : gmap string value) (msg : value) :
  error_detail (OValue (VDict d)) = Return msg → is_Some (d !! "errors").
Proof.
  unfold error_detail. simpl. destruct (d !! "errors"); [eauto | discriminate].
Qed.

(** C2 (amended): when the wrapped call returns a response that is not a
    200, has a JSON content type and decodes to an error envelope whose
    first detail is the provider's invalid-token message, the wrapper calls
    [logout()]; when the provider answers the revocation with anything but
    204, the wrapper raises [TokenExpiredError] with that message and the
    session object is the one the call left, so [is_authorized()] answers
    as before. *)
Theorem invalid_token_raises_TokenExpiredError
    (func : M Response) (st st1 : State) (response resp : Response)
    (ct : string) (d : gmap string value) (s : OAuth2Session) (w' : World) :
  fst (is_authorized st) = Return true →
  fst (token_valid st) = Return true →
  func st = (Return response, st1) →
  status_code response ≠ 200%Z →
  headers response !! "content-type" = Some ct →
  in_strs ct ["application/json"; "application/vnd.api+json"] = true →
  json response = Return (VDict d) →
  error_detail (OValue (VDict d)) = Return (VStr invalid_token_msg) →
  session st1 = Some s →
  request s "post" logout_url {["token" := access_token s]} (world st1)
    = (Return resp, w') →
  status_code resp ≠ 204%Z →
  func_wrapper func st
    = (Raise (TokenExpiredError (VStr invalid_token_msg)),
       after_revocation st1 w' "DEBUG" "Error logging out")
  ∧ is_authorized (after_revocation st1 w' "DEBUG" "Error logging out")
    = (Return (authorized s), after_revocation st1 w' "DEBUG" "Error logging out").
Proof.
  intros Ha Hv Hfunc Hcode Hct Hjson Hbody Hdetail Hs Hreq Hrevoke.
  split; [|unfold is_authorized; simpl; by rewrite Hs].
  rewrite (func_wrapper_checks func st true Ha Hv).
  rewrite (bind_return _ _ st st1 response Hfunc).
  rewrite (bind_return _ _ st1 st1 None (on_ok_not_200 _ _ Hcode)).
  erewrite bind_raise; [reflexivity|].
  unfold on_json_error.
  erewrite bind_return; [|unfold lift, header; by rewrite Hct].
  rewrite Hjson, Hbody.
  erewrite bind_return; [|reflexivity].
  erewrite bind_return; [|reflexivity].
  pose proof (proj2 (in_strs_keys d "errors")
                (error_detail_has_errors _ _ Hdetail)) as Hkeys.
  simpl in Hkeys. rewrite Hkeys, Hdetail.
  erewrite bind_return; [|reflexivity].
  change (eq_str (VStr invalid_token_msg) invalid_token_msg) with true.
  cbv iota. erewrite bind_return; [reflexivity|].
  by apply logout_refused with s resp.
Qed.

Lemma error_detail_raises (o : pyobj) (e : exn) :
  error_detail o = Raise e → misuse e ∧ ∀ a, e ≠ AttributeError a.
Proof.
  unfold error_detail, mbind, result_bind.
  destruct o as [r|v]; simpl; [intros [= <-]; by split|].
  destruct v as [| | | | | |d]; simpl; try (intros [= <-]; by split).
  destruct (d !! "errors") as [errs|]; [|intros [= <-]; by split].
  destruct errs as [|b|q|t|b|l|d']; simpl; try (intros [= <-]; by split).
  - destruct t as [|c t]; simpl; intros [= <-]; by split.
  - destruct b as [|c b]; simpl; intros [= <-]; by split.
  - destruct l as [|first l]; simpl; [intros [= <-]; by split|].
    destruct first as [| | | | | |d'']; simpl; try (intros [= <-]; by split).
    destruct (d'' !! "detail"); [discriminate | intros [= <-]; by split].
Qed.

Lemma on_json_error_escapes (response : Response) (st : State) (ct : string) :
  headers response !! "content-type" = Some ct →
  in_strs ct ["application/json"; "application/vnd.api+json"] = true →
  match json response with
  | Return body =>
      ∀ msg, error_detail (OValue body) = Return msg →
             eq_str msg invalid_token_msg = false
  | Raise (JSONDecodeError _) => True
  | Raise _ => False
  end →
  (∃ e, on_json_error response st = (Raise e, st) ∧ misuse e)
  ∨ (∃ body, on_json_error response st = (Return (OValue body), st)).
Proof.
  intros Hct Hjson Hbody.
  unfold on_json_error, mbind, M_bind, lift, header.
  rewrite Hct, Hjson.
  destruct (json response) as [body|e].
  - destruct body as [| | | | | |d];
      try (left; eexists; split; [reflexivity | exact I]).
    unfold mret, M_ret, keys.
    destruct (in_strs "errors" (map fst (map_to_list d))).
    + destruct (error_detail (OValue (VDict d))) as [msg|e] eqn:Hdetail.
      * rewrite (Hbody msg eq_refl). right. by eexists.
      * apply error_detail_raises in Hdetail as [Hmis Hattr].
        left. exists e. split; [|exact Hmis].
        destruct e; try reflexivity. by destruct (Hattr attr).
    + right. by eexists.
  - destruct e; try contradiction.
    left. eexists. split; [reflexivity | exact I].
Qed.

(** On a response that is not a 200 and has a JSON content type, unless
    the body carries the invalid-token detail, the wrapper never reaches
    the [raise OSFInvalidResponse(error_text)] of its last line: the local
    variable [response] no longer names the response object (or, when
    decoding failed, still does and has no [keys]), and a built-in error
    escapes with the state as the wrapped call left it. *)
Lemma json_error_escapes_as_misuse
    (func : M Response) (st st1 : State) (response : Response) (ct : string) :
  fst (is_authorized st) = Return true →
  fst (token_valid st) = Return true →
  func st = (Return response, st1) →
  status_code response ≠ 200%Z →
  headers response !! "content-type" = Some ct →
  in_strs ct ["application/json"; "application/vnd.api+json"] = true →
  match json response with
  | Return body =>
      ∀ msg, error_detail (OValue body) = Return msg →
             eq_str msg invalid_token_msg = false
  | Raise (JSONDecodeError _) => True
  | Raise _ => False
  end →
  ∃ e, func_wrapper func st = (Raise e, st1) ∧ misuse e.
Proof.
  intros Ha Hv Hfunc Hcode Hct Hjson Hbody.
  rewrite (func_wrapper_checks func st true Ha Hv).
  rewrite (bind_return _ _ st st1 response Hfunc).
  rewrite (bind_return _ _ st1 st1 None (on_ok_not_200 _ _ Hcode)).
  destruct (on_json_error_escapes response st1 ct Hct Hjson Hbody)
    as [(e & Hrun & Hmis)|(body & Hrun)].
  - exists e. split; [|exact Hmis]. by apply bind_raise.
  - exists (AttributeError "headers"). split; [|exact I].
    by rewrite (bind_return _ _ st1 st1 (OValue body) Hrun).
Qed.
End WrapperFacts.

(** *** The other paths of the wrapper, run once each *)

Example ok_reply_is_decoded :
  fst (get_logged_in_user (Runs.serving Runs.ok_reply)) = Return Runs.user_body.
Proof. vm_compute. reflexivity. Qed.

Example download_reply_is_raw :
  fst (get_logged_in_user (Runs.serving Runs.download_reply))
  = Return (VBytes "raw bytes").
Proof. vm_compute. reflexivity. Qed.

Example html_reply_is_reported :
  fst (get_logged_in_user (Runs.serving Runs.html_reply))
  = Raise (OSFInvalidResponse
             ("Could not handle response 502: Bad Gateway" +:+ newline
              +:+ "Content Type: text/html" +:+ newline)).
Proof. vm_compute. reflexivity. Qed.

(** ** Facts about token parsing *)

Section ParseFacts.
Context `{Environment}.

(** C9: with a session in place, when the redirect URL carries a token
    that the OAuth2 client accepts (fragment present, state matching) with
    a non-empty access token, [parse_token_from_url] stores the token on
    the session, [is_authorized()] is true afterwards and the token is
    returned; when the client rejects the URL (no fragment), the parse
    error is raised and the module state, session and token included, is
    the prior one. *)
Theorem parse_token_from_url_stores_or_fails
    (url : string) (st : State) (s : OAuth2Session) :
  session st = Some s →
  (∀ tok a,
      parse_implicit_response url (oauth_state s) (world st) = Return tok →
      tok !! "access_token" = Some a →
      truthy a = true →
      parse_token_from_url url st = (Return (VDict tok), token_stored st s tok)
      ∧ fst (is_authorized (token_stored st s tok)) = Return true
      ∧ token <$> session (token_stored st s tok) = Some tok)
  ∧ (∀ e,
      parse_implicit_response url (oauth_state s) (world st) = Raise e →
      parse_token_from_url url st = (Raise e, st)).
Proof.
  intros Hs. split.
  - intros tok a Hparse Htok Ha.
    assert (Hauth : is_authorized (token_stored st s tok)
                    = (Return true, token_stored st s tok)).
    { unfold is_authorized, token_stored, authorized, set_token. simpl.
      by rewrite Htok; simpl; rewrite Ha. }
    split; [|split]; [|by rewrite Hauth|reflexivity].
    unfold parse_token_from_url.
    erewrite bind_return.
    2:{ unfold token_from_fragment. rewrite Hs, Hparse. reflexivity. }
    fold (token_stored st s tok).
    by rewrite (bind_return _ _ _ _ _ Hauth).
  - intros e Hparse. unfold parse_token_from_url.
    apply bind_raise. unfold token_from_fragment. by rewrite Hs, Hparse.
Qed.
End ParseFacts.

(** ** Facts about endpoint resolution *)

Section EndpointFacts.
Variable base : string.

Lemma api_calls_registered (command template : string) :
  api_calls !! command = Some template →
  template = "users/me/" ∨ template = "users/me/nodes/" ∨
  template = "nodes/{}/files/" ∨ template = "nodes/{}/files/{}/" ∨
  template = "files/{}/".
Proof.
  unfold api_calls. intros Hl.
  repeat (apply lookup_insert_Some in Hl as [[_ <-]|[_ Hl]]; [tauto|]).
  by rewrite lookup_empty in Hl.
Qed.

(** The templates of the table use only what [format] models. *)
Lemma api_calls_modelled (command : string) (args : list string) :
  api_call base command args ≠ Raise NotModelled
  ∧ api_call base command args ≠ Raise ValueError.
Proof.
  unfold api_call. destruct (api_calls !! command) as [template|] eqn:Hl;
    [|split; discriminate].
  apply api_calls_registered in Hl.
  destruct Hl as [->|[->|[->|[->| ->]]]];
    destruct args as [|a [|b args]]; split; discriminate.
Qed.

(** C8: endpoint resolution is a function of the command and the
    arguments: [project_repos] with [abc123] resolves to the base URL
    followed by [nodes/abc123/files/], [logged_in_user] without arguments
    to the base URL followed by [users/me/], and a command that is not in
    the table fails with the [KeyError] of the lookup. *)
Theorem api_call_resolves :
  api_call base "project_repos" ["abc123"]
    = Return (base +:+ "nodes/abc123/files/")
  ∧ api_call base "logged_in_user" [] = Return (base +:+ "users/me/")
  ∧ ∀ command args,
      api_calls !! command = None →
      api_call base command args = Raise (KeyError command).
Proof.
  split; [reflexivity|]. split; [reflexivity|].
  intros command args Hl. unfold api_call. by rewrite Hl.
Qed.

(** C7 (amended): for a registered command, resolution fails with
    [IndexError], the error of the string formatting, when fewer
    arguments are given than the template has placeholders; with at least
    that many it succeeds, and arguments beyond the placeholders are
    ignored. *)
Theorem api_call_arity (command template : string) (args : list string) :
  api_calls !! command = Some template →
  ((List.length args < placeholders template)%nat →
     api_call base command args = Raise IndexError)
  ∧ ((placeholders template ≤ List.length args)%nat →
     ¬ raises (api_call base command args)
     ∧ api_call base command args
       = api_call base command (take (placeholders template) args)).
Proof.
  intros Hl. unfold api_call, raises. rewrite Hl.
  apply api_calls_registered in Hl.
  destruct Hl as [->|[->|[->|[->| ->]]]];
    destruct args as [|a [|b args]]; simpl;
    (split;
     [intros Hlt; first [lia | reflexivity]
     |intros Hle; first [lia | split; [intros [e [=]] | reflexivity]]]).
Qed.
End EndpointFacts.

(** C1, as stated, fails: an unauthorized call does not end in an error, it
    returns normally. *)
Lemma unauthorized_call_is_not_an_error :
  fst (is_authorized Runs.anonymous) = Return false
  ∧ ¬ raises (fst (get_logged_in_user Runs.anonymous)).
Proof.
  split; [reflexivity|]. intros [e He]. vm_compute in He. discriminate He.
Qed.

(** The amended C1 on a session that holds no token. *)
Lemma unauthorized_returns_False_witness :
  fst (is_authorized Runs.anonymous) = Return false
  ∧ get_logged_in_user Runs.anonymous
    = (Return (VBool false), turned_away Runs.anonymous).
Proof.
  split; [reflexivity|].
  apply (unauthorized_returns_False (H := Script.env)). reflexivity.
Defined.

(** C6 at the boundary instant: the clock reads exactly [expires_at]. *)
Lemma expired_raises_TokenExpiredError_witness :
  fst (is_authorized Runs.at_expiry) = Return true
  ∧ fst (token_valid Runs.at_expiry) = Return false
  ∧ get_logged_in_user Runs.at_expiry
    = (Raise (TokenExpiredError (VStr "The supplied token has expired")),
       Runs.at_expiry).
Proof.
  split; [reflexivity|]. split; [vm_compute; reflexivity|].
  apply (expired_raises_TokenExpiredError (H := Script.env));
    [reflexivity | vm_compute; reflexivity].
Defined.

(** C2, as stated, fails: the provider refuses the revocation with a 400,
    the wrapper raises [TokenExpiredError], and [is_authorized()] is still
    true afterwards. *)
Lemma forced_logout_leaves_session_authorized :
  status_code Runs.invalid_token_reply ≠ 200%Z
  ∧ fst (get_logged_in_user (Runs.rejected 400))
    = Raise (TokenExpiredError (VStr invalid_token_msg))
  ∧ fst (is_authorized (snd (get_logged_in_user (Runs.rejected 400))))
    = Return true.
Proof.
  split; [discriminate|]. split; vm_compute; reflexivity.
Qed.

(** C3: a 404 with a JSON error envelope leaves the wrapper as an
    [AttributeError], raised when the final report reads [headers] from the
    decoded body; no [OSFInvalidResponse] is raised. *)
Theorem not_found_escapes_as_AttributeError :
  status_code Runs.not_found_reply = 404%Z
  ∧ headers Runs.not_found_reply !! "content-type" = Some "application/json"
  ∧ error_detail (OValue (Script.error_body "Not found."))
    = Return (VStr "Not found.")
  ∧ fst (get_logged_in_user Runs.missing) = Raise (AttributeError "headers")
  ∧ ∀ text, fst (get_logged_in_user Runs.missing)
            ≠ Raise (OSFInvalidResponse text).
Proof.
  assert (Hrun : fst (get_logged_in_user Runs.missing)
                 = Raise (AttributeError "headers"))
    by (vm_compute; reflexivity).
  repeat split; try (vm_compute; reflexivity).
  intros text. rewrite Hrun. discriminate.
Qed.

(** C5: when the provider confirms the revocation with 204, [logout()]
    raises [NameError] for [reset_session] instead of returning [True], and
    the session is still the logged-in one. *)
Theorem logout_on_204_raises_NameError :
  fst (logout (Runs.rejected 204)) = Raise (NameError "reset_session")
  ∧ session (snd (logout (Runs.rejected 204))) = Some Script.logged_in
  ∧ fst (is_authorized (snd (logout (Runs.rejected 204)))) = Return true.
Proof.
  repeat split; vm_compute; reflexivity.
Qed.

(** The amended C2 on the run where the provider answers the revocation
    with a 400. *)
Lemma invalid_token_raises_TokenExpiredError_witness :
  let st2 := after_revocation (Runs.after_get 400) (Runs.after_post 400)
               "DEBUG" "Error logging out" in
  get_logged_in_user (Runs.rejected 400)
    = (Raise (TokenExpiredError (VStr invalid_token_msg)), st2)
  ∧ is_authorized st2 = (Return true, st2).
Proof.
  cbv zeta.
  apply (invalid_token_raises_TokenExpiredError (H := Script.env)
           (session_get (api_call api_base_url "logged_in_user" []))
           (Runs.rejected 400) (Runs.after_get 400) Runs.invalid_token_reply
           (Script.no_content 400) "application/json"
           {["errors" := VList [VDict {["detail" := VStr invalid_token_msg]}]]}
           Script.logged_in (Runs.after_post 400)).
  - reflexivity.
  - vm_compute. reflexivity.
  - reflexivity.
  - simpl. lia.
  - vm_compute. reflexivity.
  - reflexivity.
  - reflexivity.
  - vm_compute. reflexivity.
  - reflexivity.
  - reflexivity.
  - simpl. lia.
Defined.

(** C7, as stated, fails: [logged_in_user] has no placeholder, one argument
    is passed, and resolution succeeds. *)
Lemma surplus_argument_is_ignored :
  api_calls !! "logged_in_user" = Some "users/me/"
  ∧ List.length ["extra"] ≠ placeholders "users/me/"
  ∧ api_call "https://api.example.org/v2/" "logged_in_user" ["extra"]
    = Return "https://api.example.org/v2/users/me/".
Proof.
  split; [vm_compute; reflexivity|]. split; [vm_compute; lia|].
  vm_compute. reflexivity.
Qed.

(** The amended C7 on [repo_files], which has two placeholders: one
    argument is too few, a third one is ignored. *)
Lemma api_call_arity_witness :
  api_call "https://api.example.org/v2/" "repo_files" ["abc123"]
    = Raise IndexError
  ∧ api_call "https://api.example.org/v2/" "repo_files" ["abc123"; "osfstorage"; "x"]
    = api_call "https://api.example.org/v2/" "repo_files" ["abc123"; "osfstorage"].
Proof.
  split.
  - apply (proj1 (api_call_arity "https://api.example.org/v2/" "repo_files"
                    "nodes/{}/files/{}/" ["abc123"] eq_refl)).
    vm_compute. lia.
  - apply (proj2 (api_call_arity "https://api.example.org/v2/" "repo_files"
                    "nodes/{}/files/{}/" ["abc123"; "osfstorage"; "x"] eq_refl)).
    vm_compute. lia.
Defined.

(** C8 on a command that is not in the table. *)
Lemma api_call_resolves_witness :
  api_calls !! "delete_everything" = None
  ∧ api_call "https://api.example.org/v2/" "delete_everything" ["abc123"]
    = Raise (KeyError "delete_everything").
Proof.
  split; [vm_compute; reflexivity|].
  apply (api_call_resolves "https://api.example.org/v2/").
  vm_compute. reflexivity.
Defined.

(** C9 on a redirect URL with a token fragment and on one without. *)
Lemma parse_token_from_url_stores_or_fails_witness :
  let tok : gmap string value :=
    <["access_token" := VStr "abc"]> (<["expires_at" := VNum (500 + 3600)]> ∅) in
  (parse_token_from_url Script.good_url Runs.anonymous
     = (Return (VDict tok), token_stored Runs.anonymous Script.fresh tok)
   ∧ fst (is_authorized (token_stored Runs.anonymous Script.fresh tok))
     = Return true)
  ∧ parse_token_from_url "https://example.org/callback" Runs.anonymous
    = (Raise (LibraryError "MissingTokenError"), Runs.anonymous).
Proof.
  cbv zeta. split.
  - pose proof (proj1 (parse_token_from_url_stores_or_fails (H := Script.env)
                         Script.good_url Runs.anonymous Script.fresh eq_refl)
                  _ (VStr "abc") eq_refl eq_refl eq_refl) as (Hrun & Hauth & _).
    split; [exact Hrun | exact Hauth].
  - apply (proj2 (parse_token_from_url_stores_or_fails (H := Script.env)
                    "https://example.org/callback" Runs.anonymous Script.fresh
                    eq_refl)).
    reflexivity.
Defined.

(** ** More facts about the request wrapper *)

Section WrapperPaths.
Context `{Environment}.

Lemma append_empty_r (s : string) : s +:+ "" = s.
Proof.
  induction s as [|c s IH]; [reflexivity|].
  change (String c (s +:+ "") = String c s). by rewrite IH.
Qed.

Lemma bind_inv_return {A B} (m : M A) (f : A → M B) (st st' : State) (b : B) :
  (m ≫= f) st = (Return b, st') →
  ∃ a st1, m st = (Return a, st1) ∧ f a st1 = (Return b, st').
Proof.
  unfold mbind, M_bind. destruct (m st) as [[a|e] st1]; [eauto | discriminate].
Qed.

Lemma on_ok_200 (response : Response) (st : State) (ct : string) :
  status_code response = 200%Z →
  headers response !! "content-type" = Some ct →
  on_ok response st
  = if String.eqb ct "application/vnd.api+json" then
      match json response with
      | Return v => (Return (Some v), st)
      | Raise (JSONDecodeError e) =>
          (Raise (OSFInvalidResponse ("Could not decode response to JSON: " +:+ e)), st)
      | Raise e => (Raise e, st)
      end
    else if String.eqb ct "application/octet-stream"
         then (Return (Some (VBytes (content response))), st)
         else (Return None, st).
Proof.
  intros Hcode Hct. unfold on_ok, mbind, M_bind, lift, header.
  rewrite Hcode, Hct. simpl.
  destruct (String.eqb ct "application/vnd.api+json").
  - destruct (json response) as [v|e]; [reflexivity|].
    destruct e; try reflexivity.
    unfold raise, mret, M_ret. simpl. by rewrite append_empty_r.
  - destruct (String.eqb ct "application/octet-stream"); reflexivity.
Qed.

Lemma on_ok_no_header (response : Response) (st : State) :
  status_code response = 200%Z →
  headers response !! "content-type" = None →
  on_ok response st = (Raise (KeyError "content-type"), st).
Proof.
  intros Hcode Hct. unfold on_ok, mbind, M_bind, lift, header.
  by rewrite Hcode, Hct.
Qed.

(** X1: an authorized call with a valid token whose response is a 200 with
    the structured-JSON content type and a decodable body returns the
    decoded body, and the state is the one the call left. *)
Theorem wrapper_returns_decoded_json
    (func : M Response) (st st1 : State) (response : Response) (body : value) :
  fst (is_authorized st) = Return true →
  fst (token_valid st) = Return true →
  func st = (Return response, st1) →
  status_code response = 200%Z →
  headers response !! "content-type" = Some "application/vnd.api+json" →
  json response = Return body →
  func_wrapper func st = (Return body, st1).
Proof.
  intros Ha Hv Hfunc Hcode Hct Hjson.
  rewrite (func_wrapper_checks func st true Ha Hv).
  rewrite (bind_return _ _ st st1 response Hfunc).
  rewrite (bind_return _ _ st1 st1 (Some body)); [reflexivity|].
  rewrite (on_ok_200 _ _ _ Hcode Hct), Hjson. reflexivity.
Qed.

(** X2: when such a 200 response has a body that does not decode, the
    wrapper raises [OSFInvalidResponse] with the decoder's message after
    [Could not decode response to JSON: ]. *)
Theorem wrapper_rejects_undecodable_json
    (func : M Response) (st st1 : State) (response : Response) (why : string) :
  fst (is_authorized st) = Return true →
  fst (token_valid st) = Return true →
  func st = (Return response, st1) →
  status_code response = 200%Z →
  headers response !! "content-type" = Some "application/vnd.api+json" →
  json response = Raise (JSONDecodeError why) →
  func_wrapper func st
  = (Raise (OSFInvalidResponse ("Could not decode response to JSON: " +:+ why)),
     st1).
Proof.
  intros Ha Hv Hfunc Hcode Hct Hjson.
  rewrite (func_wrapper_checks func st true Ha Hv).
  rewrite (bind_return _ _ st st1 response Hfunc).
  apply bind_raise.
  rewrite (on_ok_200 _ _ _ Hcode Hct), Hjson. reflexivity.
Qed.

(** X3: a 200 response with the octet-stream content type returns the
    bytes of the body as they are; the body is not decoded. *)
Theorem wrapper_returns_raw_bytes
    (func : M Response) (st st1 : State) (response : Response) :
  fst (is_authorized st) = Return true →
  fst (token_valid st) = Return true →
  func st = (Return response, st1) →
  status_code response = 200%Z →
  headers response !! "content-type" = Some "application/octet-stream" →
  func_wrapper func st = (Return (VBytes (content response)), st1).
Proof.
  intros Ha Hv Hfunc Hcode Hct.
  rewrite (func_wrapper_checks func st true Ha Hv).
  rewrite (bind_return _ _ st st1 response Hfunc).
  rewrite (bind_return _ _ st1 st1 (Some (VBytes (content response))));
    [reflexivity|].
  rewrite (on_ok_200 _ _ _ Hcode Hct). reflexivity.
Qed.

Lemma in_json_types_false (ct : string) :
  in_strs ct ["application/json"; "application/vnd.api+json"] = false →
  String.eqb ct "application/vnd.api+json" = false.
Proof.
  unfold in_strs. simpl. intros Hin.
  apply orb_false_elim in Hin as [_ Hin].
  by apply orb_false_elim in Hin as [Hin _].
Qed.

Lemma on_ok_falls_through (response : Response) (st : State) (ct : string) :
  headers response !! "content-type" = Some ct →
  in_strs ct ["application/json"; "application/vnd.api+json"] = false →
  status_code response ≠ 200%Z ∨ ct ≠ "application/octet-stream" →
  on_ok response st = (Return None, st).
Proof.
  intros Hct Hjson Hnot.
  destruct (decide (status_code response = 200%Z)) as [Hcode|Hcode];
    [|by apply on_ok_not_200].
  rewrite (on_ok_200 _ _ _ Hcode Hct), (in_json_types_false _ Hjson).
  destruct Hnot as [Hnot|Hnot]; [contradiction|].
  apply String.eqb_neq in Hnot. by rewrite Hnot.
Qed.

Lemma format_report (code why ct body : string) :
  format ("Could not handle response {}: {}" +:+ newline
          +:+ "Content Type: {}" +:+ newline +:+ "{}")
         [code; why; ct; body]
  = Return ("Could not handle response " +:+ code +:+ ": " +:+ why +:+ newline
            +:+ "Content Type: " +:+ ct +:+ newline +:+ body).
Proof.
  transitivity
    (Return ("Could not handle response " +:+ code +:+ ": " +:+ why +:+ newline
             +:+ "Content Type: " +:+ ct +:+ newline +:+ body +:+ ""));
    [vm_compute; reflexivity | by rewrite append_empty_r].
Qed.

Lemma report_response (r : Response) (st : State) (ct : string) :
  headers r !! "content-type" = Some ct →
  report (OResponse r) st
  = (Raise (OSFInvalidResponse
              ("Could not handle response " +:+ pretty (status_code r) +:+ ": "
               +:+ reason r +:+ newline +:+ "Content Type: " +:+ ct +:+ newline
               +:+ (if in_strs ct ["text/html"; "application/octet-stream"]
                    then "" else bytes_str (content r)))),
     st).
Proof.
  intros Hct. unfold report, mbind, M_bind, lift, header. rewrite Hct.
  rewrite format_report.
  by destruct (in_strs ct ["text/html"; "application/octet-stream"]).
Qed.

(** X4: a response that is not returned as a 200 and whose content type is
    not a JSON one ends in [OSFInvalidResponse]; the text gives the status
    code, the reason and the content type, followed by the body, which is
    left out for HTML pages and octet streams. *)
Theorem wrapper_reports_other_content
    (func : M Response) (st st1 : State) (response : Response) (ct : string) :
  fst (is_authorized st) = Return true →
  fst (token_valid st) = Return true →
  func st = (Return response, st1) →
  headers response !! "content-type" = Some ct →
  in_strs ct ["application/json"; "application/vnd.api+json"] = false →
  status_code response ≠ 200%Z ∨ ct ≠ "application/octet-stream" →
  func_wrapper func st
  = (Raise (OSFInvalidResponse
              ("Could not handle response " +:+ pretty (status_code response)
               +:+ ": " +:+ reason response +:+ newline
               +:+ "Content Type: " +:+ ct +:+ newline
               +:+ (if in_strs ct ["text/html"; "application/octet-stream"]
                    then "" else bytes_str (content response)))),
     st1).
Proof.
  intros Ha Hv Hfunc Hct Hjson Hnot.
  rewrite (func_wrapper_checks func st true Ha Hv).
  rewrite (bind_return _ _ st st1 response Hfunc).
  rewrite (bind_return _ _ st1 st1 None (on_ok_falls_through _ _ _ Hct Hjson Hnot)).
  rewrite (bind_return _ _ st1 st1 (OResponse response)).
  - by apply report_response.
  - unfold on_json_error, mbind, M_bind, lift, header. by rewrite Hct, Hjson.
Qed.

(** X5: a response without a [content-type] header makes the wrapper fail
    with [KeyError], whatever its status code. *)
Theorem wrapper_needs_content_type
    (func : M Response) (st st1 : State) (response : Response) :
  fst (is_authorized st) = Return true →
  fst (token_valid st) = Return true →
  func st = (Return response, st1) →
  headers response !! "content-type" = None →
  func_wrapper func st = (Raise (KeyError "content-type"), st1).
Proof.
  intros Ha Hv Hfunc Hct.
  rewrite (func_wrapper_checks func st true Ha Hv).
  rewrite (bind_return _ _ st st1 response Hfunc).
  destruct (decide (status_code response = 200%Z)) as [Hcode|Hcode].
  - apply bind_raise. by apply on_ok_no_header.
  - rewrite (bind_return _ _ st1 st1 None (on_ok_not_200 _ _ Hcode)).
    apply bind_raise.
    unfold on_json_error, mbind, M_bind, lift, header. by rewrite Hct.
Qed.

(** X6: an exception raised by the wrapped function (a transport failure,
    say) leaves the wrapper unchanged, with the state the function left. *)
Theorem wrapper_propagates_call_error
    (func : M Response) (st st1 : State) (e : exn) :
  fst (is_authorized st) = Return true →
  fst (token_valid st) = Return true →
  func st = (Raise e, st1) →
  func_wrapper func st = (Raise e, st1).
Proof.
  intros Ha Hv Hfunc.
  rewrite (func_wrapper_checks func st true Ha Hv).
  by apply bind_raise.
Qed.
End WrapperPaths.

(** ** What the wrapper returns and what it keeps *)

Section WrapperInvariants.
Context `{Environment}.

Lemma on_ok_inv (response : Response) (st st' : State) (v : value) :
  on_ok response st = (Return (Some v), st') →
  st' = st ∧ status_code response = 200%Z ∧
  ((headers response !! "content-type" = Some "application/vnd.api+json"
    ∧ json response = Return v)
   ∨ (headers response !! "content-type" = Some "application/octet-stream"
      ∧ v = VBytes (content response))).
Proof.
  intros Hrun.
  destruct (decide (status_code response = 200%Z)) as [Hcode|Hcode];
    [|by rewrite (on_ok_not_200 _ _ Hcode) in Hrun].
  destruct (headers response !! "content-type") as [ct|] eqn:Hct;
    [|by rewrite (on_ok_no_header _ _ Hcode Hct) in Hrun].
  rewrite (on_ok_200 _ _ _ Hcode Hct) in Hrun.
  destruct (String.eqb ct "application/vnd.api+json") eqn:Hvnd.
  - apply String.eqb_eq in Hvnd as ->.
    destruct (json response) as [body|e]; [|by destruct e].
    injection Hrun as -> ->. auto.
  - destruct (String.eqb ct "application/octet-stream") eqn:Hoct;
      [|discriminate].
    apply String.eqb_eq in Hoct as ->. injection Hrun as <- ->. auto.
Qed.

Lemma report_never_returns (o : pyobj) (st st' : State) (v : value) :
  report o st ≠ (Return v, st').
Proof.
  destruct o as [r|body]; [|discriminate].
  destruct (headers r !! "content-type") as [ct|] eqn:Hct.
  - by rewrite (report_response _ _ _ Hct).
  - unfold report, mbind, M_bind, lift, header. by rewrite Hct.
Qed.

(** X7: the wrapper returns normally in three cases only: [False] for an
    unauthorized session, the decoded body of a 200 response with the
    structured-JSON content type, and the raw body of a 200 octet stream.
    Every other response, a 200 with plain [application/json] included,
    ends in an exception. *)
Theorem wrapper_returns_only
    (func : M Response) (st st' : State) (v : value) :
  func_wrapper func st = (Return v, st') →
  (fst (is_authorized st) = Return false ∧ v = VBool false
   ∧ st' = turned_away st)
  ∨ (∃ response,
       func st = (Return response, st') ∧ status_code response = 200%Z ∧
       ((headers response !! "content-type" = Some "application/vnd.api+json"
         ∧ json response = Return v)
        ∨ (headers response !! "content-type" = Some "application/octet-stream"
           ∧ v = VBytes (content response)))).
Proof.
  intros Hrun. unfold func_wrapper in Hrun.
  apply bind_inv_return in Hrun as (a & st0 & Hauth & Hrun).
  pose proof (is_authorized_state st) as Hst. rewrite Hauth in Hst.
  simpl in Hst. subst st0.
  destruct a; simpl in Hrun.
  2:{ left. injection Hrun as <- <-. by rewrite Hauth. }
  apply bind_inv_return in Hrun as (valid & st0 & Hvalid & Hrun).
  pose proof (token_valid_state st) as Hst. rewrite Hvalid in Hst.
  simpl in Hst. subst st0.
  destruct valid; simpl in Hrun; [|discriminate].
  apply bind_inv_return in Hrun as (response & st1 & Hfunc & Hrun).
  apply bind_inv_return in Hrun as (returned & st2 & Hok & Hrun).
  destruct returned as [payload|].
  - injection Hrun as -> ->.
    apply on_ok_inv in Hok as (-> & Hcode & Hkind).
    right. by exists response.
  - apply bind_inv_return in Hrun as (o & st3 & _ & Hrun).
    by apply report_never_returns in Hrun.
Qed.

(** *** The session binding *)

Lemma keeps_bind {A B} (m : M A) (f : A → M B) :
  keeps_session m → (∀ a, keeps_session (f a)) → keeps_session (m ≫= f).
Proof.
  intros Hm Hf st. unfold mbind, M_bind.
  specialize (Hm st). destruct (m st) as [[a|e] st1]; simpl in *.
  - by rewrite Hf.
  - exact Hm.
Qed.

Lemma keeps_ret {A} (a : A) : keeps_session (mret a).
Proof. by intros st. Qed.

Lemma keeps_raise {A} (e : exn) : keeps_session (raise (A := A) e).
Proof. by intros st. Qed.

Lemma keeps_lift {A} (r : result A) : keeps_session (lift r).
Proof. by intros st. Qed.

Lemma keeps_print (line : string) : keeps_session (print line).
Proof. by intros st. Qed.

Lemma keeps_logging (level msg : string) : keeps_session (logging level msg).
Proof. by intros st. Qed.

Lemma keeps_is_authorized : keeps_session is_authorized.
Proof. intros st. by rewrite is_authorized_state. Qed.

Lemma keeps_token_valid : keeps_session token_valid.
Proof. intros st. by rewrite token_valid_state. Qed.

Lemma keeps_session_request (method url : string)
    (data : OAuth2Session → gmap string value) :
  keeps_session (session_request method url data).
Proof.
  intros st. unfold session_request.
  destruct (session st) as [s|] eqn:Hs; [|exact Hs].
  by destruct (request s method url (data s) (world st)).
Qed.

Lemma keeps_session_get (url : result string) : keeps_session (session_get url).
Proof.
  intros st. unfold session_get.
  destruct (session st) as [s|] eqn:Hs; [|exact Hs].
  destruct url as [u|e]; [|exact Hs].
  by rewrite (keeps_session_request "get" u (λ _, ∅) st).
Qed.

Lemma keeps_logout : keeps_session logout.
Proof. exact logout_keeps_session. Qed.

Create HintDb keeps.
#[local] Hint Resolve keeps_ret keeps_raise keeps_lift keeps_print
  keeps_logging keeps_is_authorized keeps_token_valid keeps_session_request
  keeps_logout : keeps.

Ltac keeps :=
  repeat match goal with
    | |- keeps_session (_ ≫= _) => apply keeps_bind; [|intros ?]
    | |- keeps_session (if ?b then _ else _) => destruct b
    | |- keeps_session (match ?x with _ => _ end) => destruct x
    | |- _ => solve [auto with keeps]
    end.

Lemma keeps_on_ok (response : Response) : keeps_session (on_ok response).
Proof. unfold on_ok. keeps. Qed.

Lemma keeps_on_json_error (response : Response) :
  keeps_session (on_json_error response).
Proof. unfold on_json_error. keeps. Qed.

Lemma keeps_report (o : pyobj) : keeps_session (report o).
Proof. unfold report. keeps. Qed.

(** X8: the wrapper never rebinds the global [session]: if the wrapped
    function leaves it alone, so does the wrapped call, on every path, the
    one through [logout()] included. *)
Theorem wrapper_keeps_session (func : M Response) :
  keeps_session func → keeps_session (func_wrapper func).
Proof.
  intros Hfunc. unfold func_wrapper.
  pose proof keeps_on_ok. pose proof keeps_on_json_error.
  pose proof keeps_report. keeps.
Qed.
End WrapperInvariants.

(** ** More facts about the session operations *)

Section SessionOperations.
Context `{Environment}.

(** X9: [logout()] never returns [True] and never rebinds the session,
    whatever the provider answers: the only branch that would reset the
    session stops at the unbound name [reset_session]. *)
Theorem logout_never_returns_True (st : State) :
  fst (logout st) ≠ Return true ∧ session (snd (logout st)) = session st.
Proof.
  split; [|apply logout_keeps_session].
  unfold logout, mbind, M_bind, session_request.
  destruct (session st) as [s|]; [|discriminate].
  destruct (request s "post" logout_url _ (world st)) as [[resp|e] w'];
    [|discriminate].
  destruct (status_code resp =? 204)%Z; discriminate.
Qed.

(** X10: [logout()] posts the access token of the session to the
    revocation URL; when the answer has any status but 204 it logs the
    failure, returns [False] and the session stays bound as it was. *)
Theorem logout_refused_returns_False
    (st : State) (s : OAuth2Session) (resp : Response) (w' : World) :
  session st = Some s →
  request s "post" (base_url +:+ "oauth2/revoke")
          {["token" := access_token s]} (world st)
    = (Return resp, w') →
  status_code resp ≠ 204%Z →
  logout st
  = (Return false,
     {| session := Some s; world := w'; stdout := stdout st;
        log := log st ++ [("DEBUG", "Error logging out")] |}).
Proof.
  intros Hs Hreq Hcode.
  rewrite (logout_refused st s resp w' Hs Hreq Hcode).
  unfold after_revocation. by rewrite Hs.
Qed.

(** X11: when the transport fails during the revocation request, [logout()]
    lets the exception through; nothing is logged and the session stays. *)
Theorem logout_propagates_transport_error
    (st : State) (s : OAuth2Session) (e : exn) (w' : World) :
  session st = Some s →
  request s "post" (base_url +:+ "oauth2/revoke")
          {["token" := access_token s]} (world st)
    = (Raise e, w') →
  logout st
  = (Raise e,
     {| session := Some s; world := w'; stdout := stdout st; log := log st |}).
Proof.
  intros Hs Hreq. unfold logout. apply bind_raise.
  unfold session_request. fold logout_url in Hreq. by rewrite Hs, Hreq.
Qed.

(** X12: before [create_session()] ran the global [session] is [None]:
    [token_valid()] answers [False], and [is_authorized()], [logout()],
    [parse_token_from_url] and every wrapped call fail with
    [AttributeError]; none of them changes the state or sends anything. *)
Theorem nothing_works_without_session (st : State) :
  session st = None →
  token_valid st = (Return false, st)
  ∧ is_authorized st = (Raise (AttributeError "authorized"), st)
  ∧ logout st = (Raise (AttributeError "post"), st)
  ∧ (∀ url, parse_token_from_url url st
            = (Raise (AttributeError "token_from_fragment"), st))
  ∧ (∀ func, func_wrapper func st = (Raise (AttributeError "authorized"), st)).
Proof.
  intros Hs.
  assert (Hauth : is_authorized st = (Raise (AttributeError "authorized"), st))
    by (unfold is_authorized; by rewrite Hs).
  repeat split.
  - unfold token_valid. by rewrite Hs.
  - exact Hauth.
  - unfold logout. apply bind_raise. unfold session_request. by rewrite Hs.
  - intros url. unfold parse_token_from_url. apply bind_raise.
    unfold token_from_fragment. by rewrite Hs.
  - intros func. unfold func_wrapper. by apply bind_raise.
Qed.

(** X13: when the OAuth2 client accepts the redirect URL but the session is
    not authorized afterwards (the access token in the fragment is blank),
    [parse_token_from_url] returns [None] and logs the inconsistency at
    debug level; the token dictionary has been stored on the session all the
    same. *)
Theorem parse_token_unauthorized_returns_None
    (url : string) (st : State) (s : OAuth2Session) (tok : gmap string value) :
  session st = Some s →
  parse_implicit_response url (oauth_state s) (world st) = Return tok →
  authorized (set_token s tok) = false →
  parse_token_from_url url st
  = (Return VNone,
     {| session := Some (set_token s tok); world := world st;
        stdout := stdout st;
        log := log st
               ++ [("DEBUG", "ERROR: Token received, but user not authorized")] |}).
Proof.
  intros Hs Hparse Hauth. unfold parse_token_from_url.
  rewrite (bind_return _ _ st (token_stored st s tok) tok).
  2:{ unfold token_from_fragment. by rewrite Hs, Hparse. }
  rewrite (bind_return _ _ _ (token_stored st s tok) false).
  2:{ unfold is_authorized. simpl. by rewrite Hauth. }
  reflexivity.
Qed.

(** X14: a session whose token dictionary has no [expires_at] entry (the
    redirect carried no [expires_in]) makes [token_valid()] fail with
    [KeyError], and with it every wrapped call, before the wrapped function
    runs. *)
Theorem token_without_expiry_breaks_calls
    (func : M Response) (st : State) (s : OAuth2Session) :
  session st = Some s →
  authorized s = true →
  token s ≠ ∅ →
  token s !! "expires_at" = None →
  token_valid st = (Raise (KeyError "expires_at"), st)
  ∧ func_wrapper func st = (Raise (KeyError "expires_at"), st).
Proof.
  intros Hs Hauth Htok Hexp.
  assert (Hvalid : token_valid st = (Raise (KeyError "expires_at"), st)).
  { unfold token_valid. rewrite Hs.
    apply truthy_dict in Htok. by rewrite Htok, Hexp. }
  split; [exact Hvalid|]. unfold func_wrapper.
  rewrite (bind_return _ _ st st true).
  2:{ unfold is_authorized. by rewrite Hs, Hauth. }
  simpl. by apply bind_raise.
Qed.

(** X15: logging in and then calling: once [parse_token_from_url] stored a
    token with a non-empty access token and an [expires_at] after the
    current time, a wrapped call passes both checks and runs; a 200
    structured-JSON answer comes back decoded. *)
Theorem login_then_call_succeeds
    (url : string) (func : M Response) (st st1 : State) (s : OAuth2Session)
    (tok : gmap string value) (a e body : value) (q : Q) (response : Response) :
  session st = Some s →
  parse_implicit_response url (oauth_state s) (world st) = Return tok →
  tok !! "access_token" = Some a → truthy a = true →
  tok !! "expires_at" = Some e → as_number e = Some q →
  (clock (world st) < q)%Q →
  func (token_stored st s tok) = (Return response, st1) →
  status_code response = 200%Z →
  headers response !! "content-type" = Some "application/vnd.api+json" →
  json response = Return body →
  (parse_token_from_url url ≫= λ _, func_wrapper func) st = (Return body, st1).
Proof.
  intros Hs Hparse Ha Htruthy He Hq Hlt Hfunc Hcode Hct Hjson.
  assert (Hauth : is_authorized (token_stored st s tok)
                  = (Return true, token_stored st s tok)).
  { unfold is_authorized, token_stored, authorized, set_token. simpl.
    by rewrite Ha; simpl; rewrite Htruthy. }
  rewrite (bind_return _ _ st (token_stored st s tok) (VDict tok)).
  2:{ unfold parse_token_from_url.
      rewrite (bind_return _ _ st (token_stored st s tok) tok).
      2:{ unfold token_from_fragment. by rewrite Hs, Hparse. }
      by rewrite (bind_return _ _ _ _ _ Hauth). }
  rewrite (func_wrapper_checks func _ true).
  - rewrite (bind_return _ _ _ st1 response Hfunc).
    rewrite (bind_return _ _ st1 st1 (Some body)); [reflexivity|].
    rewrite (on_ok_200 _ _ _ Hcode Hct), Hjson. reflexivity.
  - by rewrite Hauth.
  - apply token_valid_true_iff. exists (set_token s tok), e, q.
    repeat split; try done.
    simpl. intros Hempty. by rewrite Hempty, lookup_empty in Ha.
Qed.
End SessionOperations.

(** ** More facts about endpoints and the API functions *)

Section EndpointShapes.
Variable base : string.

(** X16: endpoint resolution fails in two ways only: with the [KeyError] of
    the table lookup, when the command is not registered, and with the
    [IndexError] of the formatting, when the command is registered and fewer
    arguments are given than its template has placeholders. *)
Theorem api_call_errors (command : string) (args : list string) (e : exn) :
  api_call base command args = Raise e →
  (e = KeyError command ∧ api_calls !! command = None)
  ∨ (e = IndexError ∧
     ∃ template, api_calls !! command = Some template
                 ∧ (List.length args < placeholders template)%nat).
Proof.
  unfold api_call.
  destruct (api_calls !! command) as [template|] eqn:Hl.
  - intros Hrun. right.
    pose proof (api_calls_registered _ _ Hl) as Hreg.
    destruct Hreg as [->|[->|[->|[->| ->]]]];
      destruct args as [|a [|b args]]; simpl in Hrun;
      first [discriminate Hrun
            | injection Hrun as <-; split; [reflexivity|];
              eexists; split; [reflexivity | simpl; lia]].
  - intros [= <-]. by left.
Qed.

(** X17: the five endpoints, for any identifiers: the user, the user's
    projects, the repositories of a project, the files of a repository and
    the information on a file; arguments after the ones a template uses
    change nothing. *)
Theorem api_call_shapes (project repo file : string) (more : list string) :
  api_call base "logged_in_user" more = Return (base +:+ "users/me/")
  ∧ api_call base "projects" more = Return (base +:+ "users/me/nodes/")
  ∧ api_call base "project_repos" (project :: more)
    = Return (base +:+ "nodes/" +:+ project +:+ "/files/")
  ∧ api_call base "repo_files" (project :: repo :: more)
    = Return (base +:+ "nodes/" +:+ project +:+ "/files/" +:+ repo +:+ "/")
  ∧ api_call base "file_info" (file :: more)
    = Return (base +:+ "files/" +:+ file +:+ "/").
Proof.
  repeat split; reflexivity.
Qed.
End EndpointShapes.

Section ApiFunctions.
Context `{Environment}.

(** X18: each named API function is [direct_api_call] at the endpoint it
    resolves: the same requests, results and final state for every starting
    state. *)
Theorem api_functions_are_direct_calls (project repo : string) (st : State) :
  get_logged_in_user st = direct_api_call (api_base_url +:+ "users/me/") st
  ∧ get_user_projects st
    = direct_api_call (api_base_url +:+ "users/me/nodes/") st
  ∧ get_project_repos project st
    = direct_api_call (api_base_url +:+ "nodes/" +:+ project +:+ "/files/") st
  ∧ get_repo_files project repo st
    = direct_api_call
        (api_base_url +:+ "nodes/" +:+ project +:+ "/files/" +:+ repo +:+ "/") st.
Proof.
  repeat split; reflexivity.
Qed.

(** X19: with both OAuth2 entries in the settings, [create_session()]
    rebinds the global to a new session whatever it was bound to before,
    without contacting the provider: afterwards [is_authorized()] and
    [token_valid()] are false and every wrapped call is turned away with
    [False]. *)
Theorem create_session_starts_unauthorized
    (settings : gmap string value) (st : State) (client_id redirect_uri : value) :
  settings !! "client_id" = Some client_id →
  settings !! "redirect_uri" = Some redirect_uri →
  ∃ st',
    create_session settings st = (Return (), st')
    ∧ session st' = Some new_session ∧ world st' = world st
    ∧ is_authorized st' = (Return false, st')
    ∧ token_valid st' = (Return false, st')
    ∧ ∀ func, func_wrapper func st' = (Return (VBool false), turned_away st').
Proof.
  intros Hid Huri. eexists. split.
  { unfold create_session. rewrite Hid, Huri. reflexivity. }
  repeat split.
Qed.
End ApiFunctions.

Section SettingsFacts.
Context `{Environment}.

(** X20: [create_session()] needs [client_id] and [redirect_uri] in the
    settings; when one is missing it raises a [KeyError] whose message names
    the first missing key between quotes, [client_id] before
    [redirect_uri], and the session stays bound as it was. *)
Theorem create_session_missing_setting
    (settings : gmap string value) (st : State) :
  (settings !! "client_id" = None →
   create_session settings st
   = (Raise (KeyError
               ("The OAuth2 settings dictionary is missing the 'client_id' entry. "
                +:+ "Please add it to the QOpenScienceFramework.connection.settings "
                +:+ "dicationary before trying to create a new session")), st))
  ∧ (is_Some (settings !! "client_id") →
     settings !! "redirect_uri" = None →
     create_session settings st
     = (Raise (KeyError
                 ("The OAuth2 settings dictionary is missing the 'redirect_uri' entry. "
                  +:+ "Please add it to the QOpenScienceFramework.connection.settings "
                  +:+ "dicationary before trying to create a new session")), st)).
Proof.
  split.
  - intros Hid. unfold create_session. rewrite Hid. reflexivity.
  - intros [client_id Hid] Huri. unfold create_session.
    rewrite Hid, Huri. reflexivity.
Qed.
End SettingsFacts.

(** ** Facts about the login window *)

Section LoginWindowFacts.
Context `{Environment}.
Variable exn_str : exn → string.
Variable library_is_ValueError : string → bool.

(** X21: [check_URL] on a URL with a fragment that carries an acceptable
    token with a non-empty access token: the token is stored on the session
    and on the window, [logged_in] is emitted once and the window is
    hidden. *)
Theorem check_URL_logs_in
    (url : QUrl) (win : LoginWindow) (st : State) (s : OAuth2Session)
    (tok : gmap string value) (a : value) :
  hasFragment url = true →
  session st = Some s →
  parse_implicit_response (toString url) (oauth_state s) (world st) = Return tok →
  tok !! "access_token" = Some a → truthy a = true →
  check_URL exn_str library_is_ValueError url win st
  = (Return {| window_token := Some (VDict tok);
               logged_in_emitted := S (logged_in_emitted win);
               shown := false |},
     token_stored st s tok).
Proof.
  intros Hfrag Hs Hparse Ha Htruthy.
  unfold check_URL, try_parse_token. rewrite Hfrag.
  assert (Hrun : parse_token_from_url (toString url) st
                 = (Return (VDict tok), token_stored st s tok)).
  { unfold parse_token_from_url.
    rewrite (bind_return _ _ st (token_stored st s tok) tok).
    2:{ unfold token_from_fragment. by rewrite Hs, Hparse. }
    rewrite (bind_return _ _ _ (token_stored st s tok) true); [reflexivity|].
    unfold is_authorized, token_stored, authorized, set_token. simpl.
    by rewrite Ha; simpl; rewrite Htruthy. }
  by rewrite Hrun.
Qed.

(** X22: [check_URL] treats every normal return of [parse_token_from_url]
    as a login: when the session is not authorized after the parse and
    [None] comes back, the window still stores [None] as its token, emits
    [logged_in] and hides. *)
Theorem check_URL_emits_without_token
    (url : QUrl) (win : LoginWindow) (st : State) (s : OAuth2Session)
    (tok : gmap string value) :
  hasFragment url = true →
  session st = Some s →
  parse_implicit_response (toString url) (oauth_state s) (world st) = Return tok →
  authorized (set_token s tok) = false →
  fst (check_URL exn_str library_is_ValueError url win st)
  = Return {| window_token := Some VNone;
              logged_in_emitted := S (logged_in_emitted win);
              shown := false |}.
Proof.
  intros Hfrag Hs Hparse Hauth.
  unfold check_URL, try_parse_token. rewrite Hfrag.
  unfold parse_token_from_url.
  rewrite (bind_return _ _ st (token_stored st s tok) tok).
  2:{ unfold token_from_fragment. by rewrite Hs, Hparse. }
  rewrite (bind_return _ _ _ (token_stored st s tok) false); [reflexivity|].
  unfold is_authorized. simpl. by rewrite Hauth.
Qed.

(** X23: [check_URL] catches a [ValueError] of the parse (a missing or
    mismatching state): it logs a warning with the error's text, raises
    nothing, and the window and the session are as before.  A URL without
    fragment is ignored altogether. *)
Theorem check_URL_swallows_ValueError
    (url : QUrl) (win : LoginWindow) (st : State) (s : OAuth2Session) :
  (hasFragment url = false →
   check_URL exn_str library_is_ValueError url win st = (Return win, st))
  ∧ (hasFragment url = true →
     session st = Some s →
     parse_implicit_response (toString url) (oauth_state s) (world st)
       = Raise ValueError →
     check_URL exn_str library_is_ValueError url win st
     = (Return win,
        {| session := session st; world := world st; stdout := stdout st;
           log := log st ++ [("WARNING", exn_str ValueError)] |})).
Proof.
  split.
  - intros Hfrag. unfold check_URL. by rewrite Hfrag.
  - intros Hfrag Hs Hparse. unfold check_URL, try_parse_token. rewrite Hfrag.
    assert (Hrun : parse_token_from_url (toString url) st
                   = (Raise ValueError, st)).
    { unfold parse_token_from_url. apply bind_raise.
      unfold token_from_fragment. by rewrite Hs, Hparse. }
    by rewrite Hrun.
Qed.

(** X24: [check_URL] catches nothing but [ValueError]: any other error of
    the parse, such as oauthlib's error for a fragment without token, leaves
    the callback as an exception. *)
Theorem check_URL_lets_other_errors_through
    (url : QUrl) (win : LoginWindow) (st : State) (s : OAuth2Session) (e : exn) :
  hasFragment url = true →
  session st = Some s →
  parse_implicit_response (toString url) (oauth_state s) (world st) = Raise e →
  caught_as_ValueError library_is_ValueError e = false →
  check_URL exn_str library_is_ValueError url win st = (Raise e, st).
Proof.
  intros Hfrag Hs Hparse Hcaught.
  unfold check_URL, try_parse_token. rewrite Hfrag.
  assert (Hrun : parse_token_from_url (toString url) st = (Raise e, st)).
  { unfold parse_token_from_url. apply bind_raise.
    unfold token_from_fragment. by rewrite Hs, Hparse. }
  by rewrite Hrun, Hcaught.
Qed.

(** X25: [checkResponse] never logs anybody in.  A reply that is not a 302
    or whose redirection target has no fragment is ignored; on a 302 with a
    fragment the callback reads [osf.redirect_uri], which the connection
    module does not define, and fails with [AttributeError] before the token
    is parsed.  The state is untouched in every case. *)
Theorem checkResponse_never_logs_in
    (statuscode : option Z) (redirectUrl : QUrl) (win : LoginWindow) (st : State) :
  checkResponse exn_str library_is_ValueError statuscode redirectUrl win st
  = if bool_decide (statuscode = Some 302%Z) && hasFragment redirectUrl
    then (Raise (AttributeError "redirect_uri"), st)
    else (Return win, st).
Proof.
  unfold checkResponse.
  case_bool_decide; simpl; [|reflexivity].
  destruct (hasFragment redirectUrl); reflexivity.
Qed.
End LoginWindowFacts.

(** ** The further properties on concrete runs *)

(** X1 on the reply that carries the user. *)
Lemma wrapper_returns_decoded_json_witness :
  get_logged_in_user (Runs.serving Runs.ok_reply)
  = (Return Runs.user_body, MoreRuns.served Runs.ok_reply).
Proof.
  apply (wrapper_returns_decoded_json (H := Script.env) _
           (Runs.serving Runs.ok_reply) (MoreRuns.served Runs.ok_reply)
           Runs.ok_reply Runs.user_body);
    first [reflexivity | vm_compute; reflexivity].
Defined.

(** X2 on a 200 whose body is not JSON. *)
Lemma wrapper_rejects_undecodable_json_witness :
  get_logged_in_user (Runs.serving MoreRuns.garbled_reply)
  = (Raise (OSFInvalidResponse
              "Could not decode response to JSON: Expecting value"),
     MoreRuns.served MoreRuns.garbled_reply).
Proof.
  apply (wrapper_rejects_undecodable_json (H := Script.env) _
           (Runs.serving MoreRuns.garbled_reply)
           (MoreRuns.served MoreRuns.garbled_reply)
           MoreRuns.garbled_reply "Expecting value");
    first [reflexivity | vm_compute; reflexivity].
Defined.

(** X3 on a download. *)
Lemma wrapper_returns_raw_bytes_witness :
  get_logged_in_user (Runs.serving Runs.download_reply)
  = (Return (VBytes "raw bytes"), MoreRuns.served Runs.download_reply).
Proof.
  apply (wrapper_returns_raw_bytes (H := Script.env) _
           (Runs.serving Runs.download_reply)
           (MoreRuns.served Runs.download_reply) Runs.download_reply);
    first [reflexivity | vm_compute; reflexivity].
Defined.

(** X4 on a plain-text 500, whose body is reported, and on an HTML 502,
    whose body is not. *)
Lemma wrapper_reports_other_content_witness :
  fst (get_logged_in_user (Runs.serving MoreRuns.plain_reply))
  = Raise (OSFInvalidResponse
             ("Could not handle response 500: Internal Server Error" +:+ newline
              +:+ "Content Type: text/plain" +:+ newline +:+ "b'boom'"))
  ∧ fst (get_logged_in_user (Runs.serving Runs.html_reply))
    = Raise (OSFInvalidResponse
               ("Could not handle response 502: Bad Gateway" +:+ newline
                +:+ "Content Type: text/html" +:+ newline)).
Proof.
  unfold get_logged_in_user. split.
  - rewrite (wrapper_reports_other_content (H := Script.env) _
               (Runs.serving MoreRuns.plain_reply)
               (MoreRuns.served MoreRuns.plain_reply)
               MoreRuns.plain_reply "text/plain");
      first [reflexivity | vm_compute; reflexivity | left; simpl; lia].
  - rewrite (wrapper_reports_other_content (H := Script.env) _
               (Runs.serving Runs.html_reply)
               (MoreRuns.served Runs.html_reply)
               Runs.html_reply "text/html");
      first [reflexivity | vm_compute; reflexivity | left; simpl; lia].
Defined.

(** X5 on a reply without headers. *)
Lemma wrapper_needs_content_type_witness :
  get_logged_in_user (Runs.serving MoreRuns.bare_reply)
  = (Raise (KeyError "content-type"), MoreRuns.served MoreRuns.bare_reply).
Proof.
  apply (wrapper_needs_content_type (H := Script.env) _
           (Runs.serving MoreRuns.bare_reply)
           (MoreRuns.served MoreRuns.bare_reply) MoreRuns.bare_reply);
    first [reflexivity | vm_compute; reflexivity].
Defined.

(** X6 on a wrapped function whose transport fails. *)
Lemma wrapper_propagates_call_error_witness :
  func_wrapper MoreRuns.unreachable (Runs.serving Runs.ok_reply)
  = (Raise (LibraryError "ConnectionError"), Runs.serving Runs.ok_reply).
Proof.
  apply (wrapper_propagates_call_error (H := Script.env));
    first [reflexivity | vm_compute; reflexivity].
Defined.

(** X7 on the run that returns the user. *)
Lemma wrapper_returns_only_witness :
  ∃ response,
    session_get (api_call (@api_base_url Script.env) "logged_in_user" [])
      (Runs.serving Runs.ok_reply)
    = (Return response, MoreRuns.served Runs.ok_reply)
    ∧ status_code response = 200%Z.
Proof.
  destruct (wrapper_returns_only (H := Script.env)
              (session_get (api_call (@api_base_url Script.env) "logged_in_user" []))
              (Runs.serving Runs.ok_reply) (MoreRuns.served Runs.ok_reply)
              Runs.user_body)
    as [(Hauth & _)|(response & Hfunc & Hcode & _)].
  - reflexivity.
  - vm_compute in Hauth. discriminate Hauth.
  - exists response. split; [exact Hfunc | exact Hcode].
Defined.

(** X8 on the run through [logout()]. *)
Lemma wrapper_keeps_session_witness :
  session (snd (get_logged_in_user (Runs.rejected 400)))
  = Some Script.logged_in.
Proof.
  apply (wrapper_keeps_session (H := Script.env) _
           (keeps_session_get (H := Script.env) _) (Runs.rejected 400)).
Defined.

(** X10 on a provider that answers the revocation with a 400. *)
Lemma logout_refused_returns_False_witness :
  fst (logout (Runs.rejected 400)) = Return false
  ∧ session (snd (logout (Runs.rejected 400))) = Some Script.logged_in
  ∧ log (snd (logout (Runs.rejected 400))) = [("DEBUG", "Error logging out")].
Proof.
  rewrite (logout_refused_returns_False (H := Script.env) (Runs.rejected 400)
             Script.logged_in (Script.no_content 400)
             (snd (Script.serve Script.logged_in "post"
                     "https://accounts.example.org/oauth2/revoke"
                     {["token" := VStr "abc"]} (world (Runs.rejected 400)))));
    first [done | simpl; lia].
Defined.

(** X11 with the network down. *)
Lemma logout_propagates_transport_error_witness :
  logout MoreRuns.cut_off = (Raise (LibraryError "ConnectionError"), MoreRuns.cut_off).
Proof.
  apply (logout_propagates_transport_error (H := MoreRuns.offline)
           MoreRuns.cut_off Script.logged_in (LibraryError "ConnectionError"));
    reflexivity.
Defined.

(** X12 on the module right after import. *)
Lemma nothing_works_without_session_witness :
  token_valid MoreRuns.imported = (Return false, MoreRuns.imported)
  ∧ get_logged_in_user MoreRuns.imported
    = (Raise (AttributeError "authorized"), MoreRuns.imported).
Proof.
  destruct (nothing_works_without_session (H := Script.env)
              MoreRuns.imported eq_refl) as (Hvalid & _ & _ & _ & Hcall).
  split; [exact Hvalid | apply Hcall].
Defined.

(** X13 on a redirect whose access token is blank. *)
Lemma parse_token_unauthorized_returns_None_witness :
  fst (parse_token_from_url MoreRuns.blank_url MoreRuns.waiting) = Return VNone
  ∧ token <$> session (snd (parse_token_from_url MoreRuns.blank_url MoreRuns.waiting))
    = Some MoreRuns.blank_token.
Proof.
  rewrite (parse_token_unauthorized_returns_None (H := MoreRuns.env')
             MoreRuns.blank_url MoreRuns.waiting Script.fresh
             MoreRuns.blank_token eq_refl eq_refl eq_refl).
  split; reflexivity.
Defined.

(** X14 on a token that came without expiry. *)
Lemma token_without_expiry_breaks_calls_witness :
  get_logged_in_user MoreRuns.undated_state
  = (Raise (KeyError "expires_at"), MoreRuns.undated_state).
Proof.
  apply (token_without_expiry_breaks_calls (H := Script.env)
           (session_get (api_call (@api_base_url Script.env) "logged_in_user" []))
           MoreRuns.undated_state MoreRuns.undated eq_refl eq_refl).
  - apply truthy_dict. reflexivity.
  - vm_compute. reflexivity.
Defined.

(** X15: the redirect is parsed, then the user is fetched. *)
Lemma login_then_call_succeeds_witness :
  fst ((parse_token_from_url Script.good_url ≫= λ _, get_logged_in_user)
         MoreRuns.about_to_log_in)
  = Return Runs.user_body.
Proof.
  unfold get_logged_in_user.
  rewrite (login_then_call_succeeds (H := Script.env) Script.good_url
             (session_get (api_call (@api_base_url Script.env) "logged_in_user" []))
             MoreRuns.about_to_log_in
             (snd (session_get (api_call (@api_base_url Script.env) "logged_in_user" [])
                     (token_stored MoreRuns.about_to_log_in Script.fresh
                        MoreRuns.granted)))
             Script.fresh MoreRuns.granted (VStr "abc") (VNum (500 + 3600))
             Runs.user_body (500 + 3600)%Q Runs.ok_reply);
    first [reflexivity | vm_compute; reflexivity].
Defined.

(** X16 on [repo_files] with one argument and on an unknown command. *)
Lemma api_call_errors_witness :
  (∃ template, api_calls !! "repo_files" = Some template
               ∧ (List.length ["abc123"] < placeholders template)%nat)
  ∧ api_calls !! "trash" = None.
Proof.
  split.
  - destruct (api_call_errors "https://api.example.org/v2/" "repo_files"
                ["abc123"] IndexError eq_refl) as [[Hkey _]|[_ Hshort]];
      [discriminate Hkey | exact Hshort].
  - destruct (api_call_errors "https://api.example.org/v2/" "trash"
                [] (KeyError "trash") eq_refl) as [[_ Hnone]|[Hindex _]];
      [exact Hnone | discriminate Hindex].
Defined.

(** X19 on a logged-in session: the new session is not. *)
Lemma create_session_starts_unauthorized_witness :
  ∃ st',
    create_session MoreRuns.full_settings (Runs.rejected 400) = (Return (), st')
    ∧ session st' = Some new_session
    ∧ world st' = world (Runs.rejected 400)
    ∧ get_logged_in_user st' = (Return (VBool false), turned_away st').
Proof.
  destruct (create_session_starts_unauthorized (H := Script.env)
              MoreRuns.full_settings (Runs.rejected 400)
              (VStr "cid") (VStr "https://example.org/callback")
              eq_refl eq_refl)
    as (st' & Hrun & Hsession & Hworld & _ & _ & Hcall).
  exists st'. repeat split; try assumption. apply Hcall.
Defined.

(** X20 on empty settings and on settings without redirect URI. *)
Lemma create_session_missing_setting_witness :
  fst (create_session ∅ Runs.anonymous)
  = Raise (KeyError
             ("The OAuth2 settings dictionary is missing the 'client_id' entry. "
              +:+ "Please add it to the QOpenScienceFramework.connection.settings "
              +:+ "dicationary before trying to create a new session"))
  ∧ fst (create_session MoreRuns.partial_settings Runs.anonymous)
    = Raise (KeyError
               ("The OAuth2 settings dictionary is missing the 'redirect_uri' entry. "
                +:+ "Please add it to the QOpenScienceFramework.connection.settings "
                +:+ "dicationary before trying to create a new session")).
Proof.
  split.
  - rewrite (proj1 (create_session_missing_setting (H := Script.env)
                      ∅ Runs.anonymous));
      [reflexivity | vm_compute; reflexivity].
  - rewrite (proj2 (create_session_missing_setting (H := Script.env)
                      MoreRuns.partial_settings Runs.anonymous));
      [reflexivity | exists (VStr "cid"); vm_compute; reflexivity
      | vm_compute; reflexivity].
Defined.

(** X21 on the good redirect. *)
Lemma check_URL_logs_in_witness :
  fst (check_URL MoreRuns.show_exn MoreRuns.no_library_ValueError
         (MoreRuns.fragment_url Script.good_url) MoreRuns.closed_window
         MoreRuns.about_to_log_in)
  = Return {| window_token := Some (VDict MoreRuns.granted);
              logged_in_emitted := 1; shown := false |}.
Proof.
  rewrite (check_URL_logs_in (H := Script.env) MoreRuns.show_exn
             MoreRuns.no_library_ValueError
             (MoreRuns.fragment_url Script.good_url) MoreRuns.closed_window
             MoreRuns.about_to_log_in Script.fresh MoreRuns.granted (VStr "abc")
             eq_refl eq_refl eq_refl eq_refl eq_refl).
  reflexivity.
Defined.

(** X22 on the redirect with a blank access token. *)
Lemma check_URL_emits_without_token_witness :
  fst (check_URL MoreRuns.show_exn MoreRuns.no_library_ValueError
         (MoreRuns.fragment_url MoreRuns.blank_url) MoreRuns.closed_window
         MoreRuns.waiting)
  = Return {| window_token := Some VNone; logged_in_emitted := 1; shown := false |}.
Proof.
  apply (check_URL_emits_without_token (H := MoreRuns.env') MoreRuns.show_exn
           MoreRuns.no_library_ValueError
           (MoreRuns.fragment_url MoreRuns.blank_url) MoreRuns.closed_window
           MoreRuns.waiting Script.fresh MoreRuns.blank_token);
    reflexivity.
Defined.

(** X23 on the redirect whose state does not match. *)
Lemma check_URL_swallows_ValueError_witness :
  let run := check_URL MoreRuns.show_exn MoreRuns.no_library_ValueError
               (MoreRuns.fragment_url MoreRuns.mismatch_url)
               MoreRuns.closed_window MoreRuns.waiting in
  fst run = Return MoreRuns.closed_window
  ∧ log (snd run) = [("WARNING", "Mismatching or missing state in params.")]
  ∧ session (snd run) = Some Script.fresh.
Proof.
  cbv zeta.
  rewrite (proj2 (check_URL_swallows_ValueError (H := MoreRuns.env')
                    MoreRuns.show_exn MoreRuns.no_library_ValueError
                    (MoreRuns.fragment_url MoreRuns.mismatch_url)
                    MoreRuns.closed_window MoreRuns.waiting Script.fresh)
             eq_refl eq_refl eq_refl).
  repeat split; reflexivity.
Defined.

(** X24 on a redirect whose fragment carries no token. *)
Lemma check_URL_lets_other_errors_through_witness :
  check_URL MoreRuns.show_exn MoreRuns.no_library_ValueError
    (MoreRuns.fragment_url "https://example.org/callback#error=access_denied")
    MoreRuns.closed_window MoreRuns.about_to_log_in
  = (Raise (LibraryError "MissingTokenError"), MoreRuns.about_to_log_in).
Proof.
  apply (check_URL_lets_other_errors_through (H := Script.env)
           MoreRuns.show_exn MoreRuns.no_library_ValueError
           (MoreRuns.fragment_url "https://example.org/callback#error=access_denied")
           MoreRuns.closed_window MoreRuns.about_to_log_in Script.fresh
           (LibraryError "MissingTokenError"));
    reflexivity.
Defined.
